(** * nznewspapers: the MARC reconciliation script and the tab-separated import

    A shallow embedding of the two import scripts of the repository:
    the MARC reconciliation script (partial-date comparison, place-name
    clean-up, mode selection, identifier index, per-record classification
    and update/create logic) and the tab-separated import
    ([updateNewspaperRecord]); and [prettyYear] of the page script.

    Strings are sequences of code units below 256; a JavaScript value that
    may be [null] or [undefined] is an [option]. *)

From Stdlib Require Import ZArith Lia Bool Ascii.
From Stdlib Require String.
From stdpp Require Import base option list gmap strings fin_maps.

(** ** JavaScript string primitives *)

Module Js.

(** [s == t] on two strings. *)
Definition eqs (s t : string) : bool := String.eqb s t.

Global Arguments eqs : simpl never.

(** A string is truthy when it is not empty. *)
Definition truthy (s : string) : bool := negb (eqs s "").

(** [!v] for a value that is a string, [null] or [undefined]. *)
Definition falsy (v : option string) : bool :=
  match v with
  | Some s => negb (truthy s)
  | None => true
  end.

(** [s.startsWith(p)] *)
Definition startsWith (s p : string) : bool := String.prefix p s.

(** [s.endsWith(p)] *)
Fixpoint endsWith (s p : string) : bool :=
  eqs s p ||
  match s with
  | EmptyString => false
  | String _ s' => endsWith s' p
  end.

(** [s.includes(p)] *)
Fixpoint includes (s p : string) : bool :=
  String.prefix p s ||
  match s with
  | EmptyString => false
  | String _ s' => includes s' p
  end.

(** [s.charAt(i)]: the empty string out of range. *)
Definition charAt (i : nat) (s : string) : string :=
  match String.get i s with
  | Some c => String c ""
  | None => ""
  end.

(** [s.substring(a, b)] for [a <= b]; both ends are clamped to the length. *)
Definition substring (a b : nat) (s : string) : string :=
  String.substring a (b - a) s.

(** [s.substring(1)] *)
Definition dropFirst (s : string) : string :=
  match s with
  | EmptyString => ""
  | String _ s' => s'
  end.

(** [s.indexOf(c)] for a one-character needle; [None] stands for -1. *)
Fixpoint indexOf (s : string) (c : ascii) : option nat :=
  match s with
  | EmptyString => None
  | String a s' => if Ascii.eqb a c then Some 0 else S <$> indexOf s' c
  end.

(** [i > 1] for an index that may be -1. *)
Definition gt1 (i : option nat) : bool :=
  match i with
  | Some n => 1 <? n
  | None => false
  end.

(** Occurrence of a character. *)
Fixpoint occurs (c : ascii) (s : string) : bool :=
  match s with
  | EmptyString => false
  | String a s' => Ascii.eqb a c || occurs c s'
  end.

Fixpoint count (c : ascii) (s : string) : nat :=
  match s with
  | EmptyString => 0
  | String a s' => (if Ascii.eqb a c then 1 else 0) + count c s'
  end.

(** [s.replace(/c/, "")] for a one-character pattern without the global
    flag: only the first occurrence goes. *)
Fixpoint removeFirst (c : ascii) (s : string) : string :=
  match s with
  | EmptyString => ""
  | String a s' => if Ascii.eqb a c then s' else String a (removeFirst c s')
  end.

(** The regular expression [.] matches every code unit but a line
    terminator. *)
Definition lineTerminator (c : ascii) : bool :=
  Ascii.eqb c "010"%char || Ascii.eqb c "013"%char.

(** [/N.Z/] matched at the head of the string. *)
Definition matchNZ (s : string) : bool :=
  match s with
  | String "N"%char (String c (String "Z"%char _)) => negb (lineTerminator c)
  | _ => false
  end.

(** [s.search("N.Z")]: the string argument is compiled to a regular
    expression; [None] stands for -1. *)
Fixpoint searchNZ (s : string) : option nat :=
  match s with
  | EmptyString => None
  | String _ s' => if matchNZ s then Some 0 else S <$> searchNZ s'
  end.

(** [s.substring(n)] *)
Fixpoint drop (n : nat) (s : string) : string :=
  match n, s with
  | S n', String _ s' => drop n' s'
  | _, _ => s
  end.

Fixpoint dropWhile (p : ascii -> bool) (s : string) : string :=
  match s with
  | EmptyString => ""
  | String c s' => if p c then dropWhile p s' else s
  end.

Definition dropWhileEnd (p : ascii -> bool) (s : string) : string :=
  String.rev (dropWhile p (String.rev s)).

(** White space and line terminators among the code units below 256. *)
Definition whiteSpace (c : ascii) : bool :=
  let n := nat_of_ascii c in
  ((9 <=? n) && (n <=? 13)) || (n =? 32) || (n =? 160).

(** [s.trim()] *)
Definition trim (s : string) : string :=
  dropWhileEnd whiteSpace (dropWhile whiteSpace s).

(** [s > t] on strings: code units compared from the left. *)
Definition gts (s t : string) : bool := String.ltb t s.

End Js.

(** ** Partial dates: [isNewDateMoreSpecific] *)

Definition isNewDateMoreSpecific (currentDate newDate : string) : bool :=
  if negb (Js.endsWith currentDate "u") then false
  else if Js.eqs newDate "9999" || Js.eqs newDate "uuuu" then false
  else if Js.eqs currentDate "9999" || Js.eqs currentDate "uuuu" then true
  else if Js.endsWith currentDate "uuu" then true
  else if Js.endsWith currentDate "uu" then negb (Js.endsWith newDate "uuu")
  else if Js.endsWith currentDate "u" then negb (Js.endsWith newDate "uu")
  else false.

Global Arguments isNewDateMoreSpecific : simpl never.

(** The decision table of the specification, rule by rule: each rule is a
    guard and the answer it gives; [firstMatch] evaluates a table in order. *)
Module DateTable.

Definition unknownOrOngoing (d : string) : bool :=
  Js.eqs d "uuuu" || Js.eqs d "9999".

Definition endsInExactly (k : nat) (d : string) : bool :=
  match k with
  | 1 => Js.endsWith d "u" && negb (Js.endsWith d "uu")
  | 2 => Js.endsWith d "uu" && negb (Js.endsWith d "uuu")
  | _ => false
  end.

Definition rules (current candidate : string) : list (bool * bool) :=
  [ (negb (Js.endsWith current "u"), false);
    (unknownOrOngoing candidate, false);
    (unknownOrOngoing current, true);
    (Js.endsWith current "uuu", true);
    (endsInExactly 2 current, negb (Js.endsWith candidate "uuu"));
    (endsInExactly 1 current, negb (Js.endsWith candidate "uu")) ].

Fixpoint firstMatch (rs : list (bool * bool)) : option bool :=
  match rs with
  | [] => None
  | (guard, answer) :: rs' => if guard then Some answer else firstMatch rs'
  end.

Definition isMoreSpecific (current candidate : string) : option bool :=
  firstMatch (rules current candidate).

End DateTable.

(** ** Place names: [placeCleanUp] *)

Section Place.

(** [nznShared.titleCleanup] lives in the shared module of the repository,
    which is not part of these sources; it is taken as a parameter: a
    function of a possibly-null string whose result may be null. *)
Variable titleCleanup : option string -> option string.

Definition excludedPlace (name : string) : bool :=
  Js.includes name "Apia" || Js.includes name "Egypt" ||
  Js.includes name "London" || Js.includes name "Sydney".

(** The body of [placeCleanUp] between the exclusion test and the removal of
    the question mark: bracket stripping and the three truncations. *)
Definition placeTruncate (rawName : string) : string :=
  let name := rawName in
  let name := if Js.eqs (Js.charAt 0 name) "[" then Js.dropFirst name else name in
  match Js.searchNZ name with
  | Some _ =>
      let comma := Js.indexOf name ","%char in
      let name := if Js.gt1 comma then Js.substring 0 (default 0 comma) name else name in
      let nz := Js.searchNZ name in
      let name := if Js.gt1 nz then Js.substring 0 (default 0 nz) name else name in
      let sqb := Js.indexOf name "["%char in
      if Js.gt1 sqb then Js.substring 0 (default 0 sqb) name else name
  | None => name
  end.

(** The value of [name] handed to [titleCleanup]; [None] when the function
    has already returned [null]. *)
Definition placeBeforeCleanup (rawName : string) : option string :=
  if negb (Js.truthy rawName) then None
  else if excludedPlace rawName then None
  else Some (Js.removeFirst "?"%char (placeTruncate rawName)).

Definition placeCleanUp (rawName : string) : option string :=
  match placeBeforeCleanup rawName with
  | Some name => titleCleanup (Some name)
  | None => None
  end.

End Place.

(** ** Mode of operation *)

Inductive outcome (A : Type) : Type :=
  | Returned (a : A)
  | Thrown (message : string).
Arguments Returned {A} a.
Arguments Thrown {A} message.

Module Mode.

(** [c.toLowerCase()] on one code unit: A-Z and the Latin-1 capitals. *)
Definition lowerChar (c : ascii) : ascii :=
  let n := nat_of_ascii c in
  if (65 <=? n) && (n <=? 90) then ascii_of_nat (n + 32)
  else if (192 <=? n) && (n <=? 222) && negb (n =? 215) then ascii_of_nat (n + 32)
  else c.

Fixpoint toLowerCase (s : string) : string :=
  match s with
  | EmptyString => ""
  | String c s' => String (lowerChar c) (toLowerCase s')
  end.

(** The [switch] over the lowered first argument. *)
Definition switchMode (arg : string) : string :=
  if Js.eqs arg "report" then "report"
  else if Js.eqs arg "add-new-records" then "add-new-records"
  else if Js.eqs arg "update-existing-records" then "update-existing-records"
  else if Js.eqs arg "update-marc-files" then "update-marc-files"
  else "report".

(** [commandArgs] is [process.argv.slice(2)].  [commandArgs[0]] is
    [undefined] on an empty list, and calling [toLowerCase] on it throws a
    TypeError before the [switch] is reached. *)
Definition selectMode (commandArgs : list string) : outcome string :=
  match commandArgs with
  | [] => Thrown "TypeError: Cannot read properties of undefined (reading 'toLowerCase')"
  | arg0 :: _ => Returned (switchMode (toLowerCase arg0))
  end.

End Mode.

(** ** The tab-separated import: [updateNewspaperRecord] *)

Module Tsv.

(** A JSON value as the script sees it.  A nested object or array is kept
    with the string JavaScript converts it to; numbers are integers. *)
Inductive json : Type :=
  | JNull
  | JBool (b : bool)
  | JNum (n : Z)
  | JStr (s : string)
  | JObject (repr : string).

(** A newspaper document: a JavaScript object used as a map. *)
Abbreviation document := (gmap string json).

(** One parsed row: the columns in the order [for (var key in record)]
    visits them, each with its cell. *)
Abbreviation row := (list (string * string)).

(** Truthiness of [newspaper.revision]; a missing property is [undefined]. *)
Definition truthy (v : option json) : bool :=
  match v with
  | None | Some JNull => false
  | Some (JBool b) => b
  | Some (JNum n) => negb (n =? 0)%Z
  | Some (JStr s) => Js.truthy s
  | Some (JObject _) => true
  end.


Fixpoint replaceSpaces (s : string) : string :=
  match s with
  | EmptyString => ""
  | String c s' =>
      String (if Ascii.eqb c " "%char then "-"%char else c) (replaceSpaces s')
  end.

(** [key.toLowerCase().replaceAll(" ", "-")] *)
Definition kebab (key : string) : string :=
  replaceSpaces (Mode.toLowerCase key).

(** The columns the loop treats apart. *)
Definition special (key : string) : bool :=
  Js.eqs key "Id" || Js.eqs key "Current?" || Js.eqs key "Placecode" ||
  Js.eqs key "Modified At" || Js.eqs key "Modified By".

(** The property of the document a column writes to, if it writes at all. *)
Definition target (key : string) : option string :=
  if Js.eqs key "Id" then Some "id"
  else if Js.eqs key "Current?" then Some "is-current"
  else if Js.eqs key "Placecode" then Some "nzn-placecode"
  else if Js.eqs key "Modified At" || Js.eqs key "Modified By" then None
  else Some (kebab key).

(** One turn of the loop over the columns.  Under the key "Id" the cell is
    [record.Id] itself. *)
Definition mergeColumn (newspaper : document) (column : string * string)
  : document :=
  let '(key, cell) := column in
  if Js.eqs key "Id" then <["id" := JStr cell]> newspaper
  else if Js.eqs key "Current?" then <["is-current" := JStr cell]> newspaper
  else if Js.eqs key "Placecode" then <["nzn-placecode" := JStr cell]> newspaper
  else if Js.eqs key "Modified At" || Js.eqs key "Modified By" then newspaper
  else if negb (Js.eqs cell "") then <[kebab key := JStr cell]> newspaper
  else newspaper.

Definition mergeRow (record : row) (newspaper : document) : document :=
  fold_left mergeColumn record newspaper.



(** A column writes to a property when it is mapped to it and is either one
    of the special columns or has a cell that is not empty. *)
Definition writes (field : string) (column : string * string) : bool :=
  match target column.1 with
  | Some f => Js.eqs f field && (special column.1 || negb (Js.eqs column.2 ""))
  | None => false
  end.

Definition writesTo (field : string) (record : row) : bool :=
  existsb (writes field) record.

End Tsv.

(** ** The MARC reconciliation: records, index, per-record handler *)

Module Marc.

(** A record as the MARC reader delivers it: the leader, the control fields
    (tag and value) and the data fields (tag and subfields, each a pair of
    code and value), in file order. *)
Record record : Type := {
  leader : string;
  control : list (string * string);
  data : list (string * list (string * string))
}.

(** [tag.match(/008/)]: the pattern occurs in the tag. *)
Definition tagMatches (pattern tag : string) : bool := Js.includes tag pattern.

(** The value the callback of [record.match(/008/, ...)] saw last. *)
Definition generalInfoValue (r : record) : option string :=
  fold_left
    (fun seen (field : string * string) =>
       if tagMatches "008" field.1 then Some field.2 else seen)
    (control r) None.

(** The subfield pairs visited by
    [record.get(/tag/).forEach(field => field.subf.forEach(...))]. *)
Definition subfields (pattern : string) (r : record) : list (string * string) :=
  concat (map snd (filter (fun field : string * list (string * string) =>
                             tagMatches pattern field.1 = true) (data r))).

End Marc.

(** A newspaper document of the store.  [firstYear], [finalYear] and
    [isCurrent] are read by the update path on every stored record. *)
Record newspaper : Type := {
  id : string;
  title : option string;
  genre : string;
  idMarcControlNumber : option string;
  isCurrent : bool;
  firstYear : string;
  finalYear : string;
  frequency : option string;
  placename : string;
  placecode : string;
  district : string;
  region : string
}.

Record place : Type := {
  place_placecode : string;
  place_district : string;
  place_region : string
}.

(** What leaves the script: calls of [nznShared.writeNewspaper] and MARC
    text files written for a newspaper id. *)
Inductive event : Type :=
  | WriteNewspaper (newspaperId : string) (written : newspaper) (source : string)
  | WriteMarcFile (newspaperId : string) (r : Marc.record).

Definition isWriteNewspaper (e : event) : bool :=
  match e with
  | WriteNewspaper _ _ _ => true
  | WriteMarcFile _ _ => false
  end.

(** The variables of the script that change while the stream is read, and
    the newspaper store behind [nznShared]. *)
Record state : Type := {
  store : gmap string newspaper;
  stats : gmap string nat;
  recordCounter : nat;
  serialCounter : nat;
  newspaperCounter : nat;
  events : list event
}.

Definition addStats (label : string) (stats : gmap string nat) : gmap string nat :=
  match stats !! label with
  | Some (S n) => <[label := S (S n)]> stats
  | _ => <[label := 1]> stats
  end.

Definition withStats (label : string) (st : state) : state :=
  {| store := store st; stats := addStats label (stats st);
     recordCounter := recordCounter st; serialCounter := serialCounter st;
     newspaperCounter := newspaperCounter st; events := events st |}.

Definition withEvent (e : event) (st : state) : state :=
  {| store := store st; stats := stats st;
     recordCounter := recordCounter st; serialCounter := serialCounter st;
     newspaperCounter := newspaperCounter st; events := events st ++ [e] |}.

Definition countRecord (st : state) : state :=
  {| store := store st; stats := stats st;
     recordCounter := S (recordCounter st); serialCounter := serialCounter st;
     newspaperCounter := newspaperCounter st; events := events st |}.

Definition countSerial (st : state) : state :=
  {| store := store st; stats := stats st;
     recordCounter := recordCounter st; serialCounter := S (serialCounter st);
     newspaperCounter := newspaperCounter st; events := events st |}.

Definition countNewspaper (st : state) : state :=
  {| store := store st; stats := stats st;
     recordCounter := recordCounter st; serialCounter := serialCounter st;
     newspaperCounter := S (newspaperCounter st); events := events st |}.

(** Modelled from the spec: [nznShared.writeNewspaper] is not part of these
    sources.  The store keeps one document per newspaper id, and a write
    puts the document under its id; the call is recorded with its source
    note. *)
Definition writeNewspaper (newspaperId : string) (written : newspaper)
    (source : string) (st : state) : state :=
  withEvent (WriteNewspaper newspaperId written source)
    {| store := <[newspaperId := written]> (store st); stats := stats st;
       recordCounter := recordCounter st; serialCounter := serialCounter st;
       newspaperCounter := newspaperCounter st; events := events st |}.

(** Modelled from the spec: [nznShared.readNewspaper] is not part of these
    sources.  It loads the document stored under the id. *)
Definition readNewspaper (newspaperId : string) (st : state) : option newspaper :=
  store st !! newspaperId.

(** Modelled from the spec: [nznShared.getNewspaperRecords] is not part of
    these sources.  It returns every persisted record under its id; the
    entries are visited in the order of the map. *)
Definition getNewspaperRecords (papers : gmap string newspaper)
  : list (string * newspaper) :=
  map_to_list papers.

(** [marcNumberToNewspaperId[number]] when it is truthy. *)
Definition lookupId (marcNumberToNewspaperId : gmap string string)
    (number : string) : option string :=
  match marcNumberToNewspaperId !! number with
  | Some newspaperId => if Js.truthy newspaperId then Some newspaperId else None
  | None => None
  end.

Definition showTitle (t : option string) : string := default "undefined" t.

Definition duplicateMessage (marcNumber newspaperId : string) (paper : newspaper)
    (firstId : string) (firstTitle : option string) : string :=
  "Error: Duplicate MARC number '" +:+ marcNumber +:+ "': " +:+ newspaperId
  +:+ " (" +:+ showTitle (title paper) +:+ " / " +:+ genre paper +:+ ")"
  +:+ " matches " +:+ firstId +:+ " (" +:+ showTitle firstTitle +:+ ")".

(** The loop over the existing records that fills [marcNumberToNewspaperId]
    and [placeData]; [newspaperRecords] is the object the entries come
    from. *)
Fixpoint scanRecords (newspaperRecords : gmap string newspaper)
    (entries : list (string * newspaper))
    (marcNumberToNewspaperId : gmap string string)
    (placeData : gmap string place)
  : outcome (gmap string string * gmap string place) :=
  match entries with
  | [] => Returned (marcNumberToNewspaperId, placeData)
  | (newspaperId, paper) :: rest =>
      let placeData' :=
        match placeData !! placename paper with
        | Some _ => placeData
        | None =>
            <[placename paper :=
                {| place_placecode := placecode paper;
                   place_district := district paper;
                   place_region := region paper |}]> placeData
        end in
      match idMarcControlNumber paper with
      | Some marcNumber =>
          if negb (Js.truthy marcNumber) then
            scanRecords newspaperRecords rest marcNumberToNewspaperId placeData'
          else
            match lookupId marcNumberToNewspaperId marcNumber with
            | None =>
                scanRecords newspaperRecords rest
                  (<[marcNumber := newspaperId]> marcNumberToNewspaperId) placeData'
            | Some firstId =>
                Thrown (duplicateMessage marcNumber newspaperId paper firstId
                          (newspaperRecords !! firstId ≫= title))
            end
      | None =>
          scanRecords newspaperRecords rest marcNumberToNewspaperId placeData'
      end
  end.

Definition buildIndex (papers : gmap string newspaper)
  : outcome (gmap string string * gmap string place) :=
  scanRecords papers (getNewspaperRecords papers) ∅ ∅.

(** The fields the handler extracts from one newspaper record. *)
Module Bib.

Record parsed : Type := {
  dateOnFile : string;
  typeOfDate : string;
  date1 : string;
  date2 : string;
  marcControlNumber : option string;
  marcControlNumberList : list string;
  newspaperId : option string;
  isElectronicResource : bool;
  isMicroformResource : bool;
  title : option string;
  medium : option string;
  uniformTitle : option string;
  edition : option string;
  physicalExtent : option string;
  frequency : option string;
  infrequent : bool;
  genre : option string;
  placename : option string
}.

End Bib.

(** [frequency.trim().replace(/[\.\,\?]+$/, "")] *)
Definition trailingPunctuation (c : ascii) : bool :=
  Ascii.eqb c "."%char || Ascii.eqb c ","%char || Ascii.eqb c "?"%char.

Definition cleanFrequency (raw : string) : string :=
  Js.dropWhileEnd trailingPunctuation (Js.trim raw).

Definition infrequentFrequencies : list string :=
  ["Annual"; "Semiannual"; "Quarterly"; "Monthly"].

(** [[...].includes(frequency)] *)
Definition isInfrequent (frequency : string) : bool :=
  existsb (Js.eqs frequency) infrequentFrequencies.

(** The 035 loop: the last "(Nz)" number, the list of all of them, and the
    id of the last one the index knows. *)
Definition controlNumberStep (marcNumberToNewspaperId : gmap string string)
    (acc : option string * list string * option string) (pair : string * string)
  : option string * list string * option string :=
  let '(marcControlNumber, marcControlNumberList, newspaperId) := acc in
  if Js.eqs pair.1 "a" && Js.startsWith pair.2 "(Nz)" then
    let number := Js.drop 4 pair.2 in
    (Some number, marcControlNumberList ++ [number],
     match lookupId marcNumberToNewspaperId number with
     | Some found => Some found
     | None => newspaperId
     end)
  else acc.

(** The 245 loop: title, medium and the two format flags. *)
Definition titleStep (acc : option string * option string * bool * bool)
    (pair : string * string) : option string * option string * bool * bool :=
  let '(title, medium, isElectronicResource, isMicroformResource) := acc in
  if Js.eqs pair.1 "a" then
    (Some pair.2, medium, isElectronicResource, isMicroformResource)
  else if Js.eqs pair.1 "h" then
    if Js.startsWith pair.2 "[electronic resource]" then
      (title, Some pair.2, true, isMicroformResource)
    else if Js.startsWith pair.2 "[microform]" then
      (title, Some pair.2, isElectronicResource, true)
    else (title, Some pair.2, isElectronicResource, isMicroformResource)
  else acc.

(** The 130, 250 and 655 loops keep the last fitting subfield "a". *)
Definition lastStep (keep : string -> bool) (acc : option string)
    (pair : string * string) : option string :=
  if Js.eqs pair.1 "a" then (if keep pair.2 then Some pair.2 else acc) else acc.

(** The 300 loop: extent and, again, the two format flags. *)
Definition extentStep (acc : option string * bool * bool)
    (pair : string * string) : option string * bool * bool :=
  let '(physicalExtent, isElectronicResource, isMicroformResource) := acc in
  if Js.eqs pair.1 "a" then
    if Js.includes pair.2 "microf" then (Some pair.2, isElectronicResource, true)
    else if Js.includes pair.2 "online resource" then
      (Some pair.2, true, isMicroformResource)
    else if Js.includes pair.2 "electronic documents" then
      (Some pair.2, true, isMicroformResource)
    else (Some pair.2, isElectronicResource, isMicroformResource)
  else acc.

(** The 310 loop. *)
Definition frequencyStep (acc : option string * bool) (pair : string * string)
  : option string * bool :=
  if Js.eqs pair.1 "a" then
    let frequency := cleanFrequency pair.2 in
    (Some frequency, isInfrequent frequency)
  else acc.

Section Reconciliation.

(** [nznShared.titleCleanup] and [nznShared.getNextNewspaperId] are not part
    of these sources and are parameters; the next id is a function of the
    newspaper store. *)
Variable titleCleanup : option string -> option string.
Variable getNextNewspaperId : gmap string newspaper -> string.

(** The 260 loop. *)
Definition placeStep (acc : option string) (pair : string * string)
  : option string :=
  if Js.eqs pair.1 "a" then placeCleanUp titleCleanup pair.2 else acc.

(** Everything the handler reads off a newspaper record; [info] is the value
    of its 008 field.  The flags left by the 245 loop are where the 300 loop
    starts from. *)
Definition parse (marcNumberToNewspaperId : gmap string string)
    (r : Marc.record) (info : string) : Bib.parsed :=
  let numbers :=
    fold_left (controlNumberStep marcNumberToNewspaperId)
      (Marc.subfields "035" r) (None, [], None) in
  let titles :=
    fold_left titleStep (Marc.subfields "245" r) (None, None, false, false) in
  let extent :=
    fold_left extentStep (Marc.subfields "300" r) (None, titles.1.2, titles.2) in
  let frequencies :=
    fold_left frequencyStep (Marc.subfields "310" r) (None, false) in
  {| Bib.dateOnFile := Js.substring 0 6 info;
     Bib.typeOfDate := Js.charAt 6 info;
     Bib.date1 := Js.substring 7 11 info;
     Bib.date2 := Js.substring 11 15 info;
     Bib.marcControlNumber := numbers.1.1;
     Bib.marcControlNumberList := numbers.1.2;
     Bib.newspaperId := numbers.2;
     Bib.isElectronicResource := extent.1.2;
     Bib.isMicroformResource := extent.2;
     Bib.title := titles.1.1.1;
     Bib.medium := titles.1.1.2;
     Bib.uniformTitle :=
       fold_left (lastStep (fun _ => true)) (Marc.subfields "130" r) None;
     Bib.edition :=
       fold_left (lastStep (fun _ => true)) (Marc.subfields "250" r) None;
     Bib.physicalExtent := extent.1.1;
     Bib.frequency := frequencies.1;
     Bib.infrequent := frequencies.2;
     Bib.genre :=
       fold_left
         (lastStep (fun value => Js.startsWith value "New Zealand newspapers"))
         (Marc.subfields "655" r) None;
     Bib.placename := fold_left placeStep (Marc.subfields "260" r) None |}.

Definition setFirstYear (year : string) (paper : newspaper) : newspaper :=
  {| id := id paper; title := title paper; genre := genre paper;
     idMarcControlNumber := idMarcControlNumber paper;
     isCurrent := isCurrent paper; firstYear := year;
     finalYear := finalYear paper; frequency := frequency paper;
     placename := placename paper; placecode := placecode paper;
     district := district paper; region := region paper |}.

Definition setFinalYear (year : string) (paper : newspaper) : newspaper :=
  {| id := id paper; title := title paper; genre := genre paper;
     idMarcControlNumber := idMarcControlNumber paper;
     isCurrent := isCurrent paper; firstYear := firstYear paper;
     finalYear := year; frequency := frequency paper;
     placename := placename paper; placecode := placecode paper;
     district := district paper; region := region paper |}.

Definition setIsCurrent (current : bool) (paper : newspaper) : newspaper :=
  {| id := id paper; title := title paper; genre := genre paper;
     idMarcControlNumber := idMarcControlNumber paper;
     isCurrent := current; firstYear := firstYear paper;
     finalYear := finalYear paper; frequency := frequency paper;
     placename := placename paper; placecode := placecode paper;
     district := district paper; region := region paper |}.

(** The three field updates of the branch for a matched record, with the
    [updated] flag. *)
Definition updateFields (paper : newspaper) (date1 date2 : string)
  : newspaper * bool :=
  let '(paper, updated) :=
    if negb (Js.eqs (firstYear paper) date1)
       && isNewDateMoreSpecific (firstYear paper) date1
    then (setFirstYear date1 paper, true) else (paper, false) in
  let '(paper, updated) :=
    if negb (Js.eqs (finalYear paper) date2)
       && isNewDateMoreSpecific (finalYear paper) date2
    then (setFinalYear date2 paper, true) else (paper, updated) in
  let isCurrentlyPublished := Js.eqs (finalYear paper) "9999" in
  if negb (Bool.eqb (isCurrent paper) isCurrentlyPublished)
  then (setIsCurrent isCurrentlyPublished paper, true) else (paper, updated).

Definition updateSource (marcControlNumber : string) : string :=
  "Date updated from the New Zealand National Bibliography " +:+
  "(MARC record " +:+ marcControlNumber +:+ ") downloaded June 2022.".

Definition createSource (marcControlNumber : string) : string :=
  "Extracted from the New Zealand National Bibliography " +:+
  "(MARC record " +:+ marcControlNumber +:+ ") downloaded June 2022.".

(** The record built for an unrecognized MARC record. *)
Definition newRecord (placeData : gmap string place) (newspaperId : string)
    (marcControlNumber placename : string) (p : Bib.parsed) : newspaper :=
  let known := placeData !! placename in
  {| id := newspaperId;
     title := titleCleanup (Bib.title p);
     genre := "Unknown";
     idMarcControlNumber := Some marcControlNumber;
     isCurrent := Js.eqs (Bib.typeOfDate p) "c";
     firstYear := Bib.date1 p;
     finalYear := Bib.date2 p;
     frequency := if Js.falsy (Bib.frequency p) then None else Bib.frequency p;
     placename := placename;
     placecode := match known with
                  | Some entry => place_placecode entry
                  | None => "unknown"
                  end;
     district := match known with
                 | Some entry => place_district entry
                 | None => "Unknown District"
                 end;
     region := match known with
               | Some entry => place_region entry
               | None => "Unknown Region"
               end |}.

(** The branch for a record matched to an existing newspaper. *)
Definition updateExisting (newspaperId marcControlNumber : string)
    (p : Bib.parsed) (st : state) : outcome state :=
  let st := withStats "count-existing-record" st in
  match readNewspaper newspaperId st with
  | Some paper =>
      let '(paper, updated) := updateFields paper (Bib.date1 p) (Bib.date2 p) in
      if updated then
        Returned (writeNewspaper newspaperId paper (updateSource marcControlNumber)
                    (withStats "count-existing-record-updated" st))
      else Returned st
  | None => Thrown "readNewspaper: no record under this id"
  end.

(** The branch for an unrecognized record; also gives the new id. *)
Definition addNew (placeData : gmap string place)
    (marcControlNumber placename : string) (p : Bib.parsed) (st : state)
  : state * string :=
  let st := withStats "count-new-record" st in
  let newspaperId := getNextNewspaperId (store st) in
  let st :=
    if Js.gts (Bib.dateOnFile p) "130402"
    then withStats "count-new-record-since-last-load" st else st in
  (writeNewspaper newspaperId
     (newRecord placeData newspaperId marcControlNumber placename p)
     (createSource marcControlNumber) st,
   newspaperId).

(** The chain of tests from "Does this Marc Control Number match a known
    record?" on; the result carries the value of [newspaperId] at its end.
    Past the five skip tests the control number and the place name are
    non-empty strings. *)
Definition classify (placeData : gmap string place) (p : Bib.parsed)
    (st : state) : outcome (state * option string) :=
  if Js.falsy (Bib.marcControlNumber p) then
    Returned (withStats "count-skipped-no-nz-control-number" st, Bib.newspaperId p)
  else if Bib.isMicroformResource p then
    Returned (withStats "count-skipped-micoform" st, Bib.newspaperId p)
  else if Bib.isElectronicResource p then
    Returned (withStats "count-skipped-electronic" st, Bib.newspaperId p)
  else if Bib.infrequent p then
    Returned (withStats "count-skipped-infrequent" st, Bib.newspaperId p)
  else if Js.falsy (Bib.placename p) then
    Returned (withStats "count-skipped-placename" st, Bib.newspaperId p)
  else
    match Bib.marcControlNumber p, Bib.placename p with
    | Some marcControlNumber, Some placename =>
        match Bib.newspaperId p with
        | Some newspaperId =>
            match updateExisting newspaperId marcControlNumber p st with
            | Returned st => Returned (st, Some newspaperId)
            | Thrown message => Thrown message
            end
        | None =>
            let '(st, newspaperId) :=
              addNew placeData marcControlNumber placename p st in
            Returned (st, Some newspaperId)
        end
    | _, _ => Returned (st, Bib.newspaperId p)
    end.

(** [if (newspaperId && marcControlNumber)]: the MARC text file. *)
Definition writeMarcFile (newspaperId marcControlNumber : option string)
    (r : Marc.record) (st : state) : state :=
  match newspaperId with
  | Some found =>
      if Js.truthy found && negb (Js.falsy marcControlNumber)
      then withEvent (WriteMarcFile found r) st else st
  | None => st
  end.

(** The handler of the "data" event for one record of the stream. *)
Definition onData (marcNumberToNewspaperId : gmap string string)
    (placeData : gmap string place) (st : state) (r : Marc.record)
  : outcome state :=
  let st := countRecord st in
  if Js.eqs (Js.charAt 6 (Marc.leader r)) "a"
     && Js.eqs (Js.charAt 7 (Marc.leader r)) "s" then
    let st := countSerial st in
    match Marc.generalInfoValue r with
    | Some info =>
        if Js.eqs (Js.charAt 21 info) "n" then
          let st := countNewspaper st in
          let p := parse marcNumberToNewspaperId r info in
          match classify placeData p st with
          | Returned (st, newspaperId) =>
              Returned (writeMarcFile newspaperId (Bib.marcControlNumber p) r st)
          | Thrown message => Thrown message
          end
        else Returned st
    | None => Returned st
    end
  else Returned st.

(** [readMarcFile]: the handler on the records of the stream, one after the
    other; an exception in the handler ends the run. *)
Fixpoint readMarcFile (marcNumberToNewspaperId : gmap string string)
    (placeData : gmap string place) (records : list Marc.record) (st : state)
  : outcome state :=
  match records with
  | [] => Returned st
  | r :: rest =>
      match onData marcNumberToNewspaperId placeData st r with
      | Returned st' => readMarcFile marcNumberToNewspaperId placeData rest st'
      | Thrown message => Thrown message
      end
  end.

Definition initialState (papers : gmap string newspaper) : state :=
  {| store := papers; stats := ∅; recordCounter := 0; serialCounter := 0;
     newspaperCounter := 0; events := [] |}.

(** One run of the script over a newspaper store and the records of the
    MARC file: the scan of the existing records, then [readMarcFile]. *)
Definition runScript (papers : gmap string newspaper)
    (records : list Marc.record) : outcome state :=
  match buildIndex papers with
  | Returned (marcNumberToNewspaperId, placeData) =>
      readMarcFile marcNumberToNewspaperId placeData records (initialState papers)
  | Thrown message => Thrown message
  end.

End Reconciliation.

(** ** The specification's reading of the handler *)

(** A record the handler treats as a newspaper: a serial by its leader whose
    008 field has "n" as type of continuing resource; the result is the
    value of that field. *)
Definition newspaperInfo (r : Marc.record) : option string :=
  if Js.eqs (Js.charAt 6 (Marc.leader r)) "a"
     && Js.eqs (Js.charAt 7 (Marc.leader r)) "s" then
    match Marc.generalInfoValue r with
    | Some info => if Js.eqs (Js.charAt 21 info) "n" then Some info else None
    | None => None
    end
  else None.

(** The skip conditions in the order of the specification, each with its
    counter. *)
Definition skipRules (p : Bib.parsed) : list (bool * string) :=
  [ (Js.falsy (Bib.marcControlNumber p), "count-skipped-no-nz-control-number");
    (Bib.isMicroformResource p, "count-skipped-micoform");
    (Bib.isElectronicResource p, "count-skipped-electronic");
    (Bib.infrequent p, "count-skipped-infrequent");
    (Js.falsy (Bib.placename p), "count-skipped-placename") ].

Fixpoint firstSkip (rules : list (bool * string)) : option string :=
  match rules with
  | [] => None
  | (condition, counter) :: rest =>
      if condition then Some counter else firstSkip rest
  end.

(** The calls of [writeNewspaper] among the events. *)
Definition newspaperWrites (st : state) : list event :=
  filter (fun e => isWriteNewspaper e = true) (events st).

(** ** Control numbers, claims and processed records *)

(** The "(Nz)" number of a subfield pair of a 035 field. *)
Definition nzNumber (pair : string * string) : option string :=
  if Js.eqs pair.1 "a" && Js.startsWith pair.2 "(Nz)"
  then Some (Js.drop 4 pair.2) else None.

Definition nzNumbers (r : Marc.record) : list string :=
  omap nzNumber (Marc.subfields "035" r).

(** The id the 035 loop ends with for a list of numbers. *)
Definition resolve (idx : gmap string string) (numbers : list string)
  : option string :=
  fold_left (fun found number => from_option Some found (lookupId idx number))
    numbers None.

(** The control number a stored record claims: its [idMarcControlNumber]
    when that is a non-empty string. *)
Definition claim (entry : string * newspaper) : option (string * string) :=
  match idMarcControlNumber entry.2 with
  | Some marcNumber =>
      if Js.truthy marcNumber then Some (marcNumber, entry.1) else None
  | None => None
  end.

Definition Claims (papers : gmap string newspaper) (marcNumber newspaperId : string)
  : Prop :=
  exists paper, papers !! newspaperId = Some paper /\
                idMarcControlNumber paper = Some marcNumber /\
                Js.truthy marcNumber = true.

Definition truthyValues (idx : gmap string string) : Prop :=
  forall m i, idx !! m = Some i -> Js.truthy i = true.

Definition truthyKeys (papers : gmap string newspaper) : Prop :=
  forall i paper, papers !! i = Some paper -> Js.truthy i = true.

(** At most one record claims a given control number. *)
Definition uniqueClaims (papers : gmap string newspaper) : Prop :=
  forall m i1 i2, Claims papers m i1 -> Claims papers m i2 -> i1 = i2.

(** A record that reaches the update or the create branch, with its
    fields; the index plays no part in the skip tests. *)
Definition processed (titleCleanup : option string -> option string)
    (r : Marc.record) : option Bib.parsed :=
  match newspaperInfo r with
  | Some info =>
      let p := parse titleCleanup ∅ r info in
      match firstSkip (skipRules p) with
      | None => Some p
      | Some _ => None
      end
  | None => None
  end.

(** All the "(Nz)" numbers of the processed records of a list. *)
Definition processedNumbers (titleCleanup : option string -> option string)
    (records : list Marc.record) : list string :=
  records ≫= (fun r => from_option Bib.marcControlNumberList []
                         (processed titleCleanup r)).

(** The update branch would leave the document as it is. *)
Definition settled (p : Bib.parsed) (paper : newspaper) : Prop :=
  updateFields paper (Bib.date1 p) (Bib.date2 p) = (paper, false).

(** An index that holds exactly the claims of a store. *)
Definition indexOf (papers : gmap string newspaper) (idx : gmap string string)
  : Prop :=
  forall m i, idx !! m = Some i <-> Claims papers m i.

(** What holds of the store after the records in [done] have gone through
    the handler of a run whose index is [idx0]: every claim is one of the
    index or a number of a processed record, and every processed record
    resolves, in an index of the store, to a document that is settled for
    it. *)
Record invariant (titleCleanup : option string -> option string)
    (idx0 : gmap string string) (done : list Marc.record)
    (papers : gmap string newspaper) : Prop := {
  inv_keys : truthyKeys papers;
  inv_unique : uniqueClaims papers;
  inv_index : forall m i, idx0 !! m = Some i -> Claims papers m i;
  inv_claims : forall m i, Claims papers m i ->
      idx0 !! m = Some i \/
      (idx0 !! m = None /\ m ∈ processedNumbers titleCleanup done);
  inv_settled : forall r p, r ∈ done -> processed titleCleanup r = Some p ->
      exists i paper m,
        papers !! i = Some paper /\ settled p paper /\
        m ∈ Bib.marcControlNumberList p /\ idMarcControlNumber paper = Some m /\
        forall idx, indexOf papers idx ->
                    resolve idx (Bib.marcControlNumberList p) = Some i
}.

(** ** Example data *)

Module Sample.

(** A title clean-up that leaves its argument alone. *)
Definition cleanup : option string -> option string := fun name => name.

Fixpoint nines (n : nat) : string :=
  match n with
  | 0 => ""
  | S n' => String "9" (nines n')
  end.

Definition longest (papers : gmap string newspaper) : nat :=
  foldr (fun (entry : string * newspaper) n => max (String.length entry.1) n) 0
    (map_to_list papers).

(** An id generator: a row of nines longer than every id of the store. *)
Definition nextId (papers : gmap string newspaper) : string :=
  nines (S (longest papers)).

(** An 008 value: date on file, type of date, the two dates, and "n" as
    type of continuing resource at position 21. *)
Definition info (typeOfDate date1 date2 : string) : string :=
  "220101" +:+ typeOfDate +:+ date1 +:+ date2 +:+ "nz dr n".

Definition serial (number frequency general : string) : Marc.record :=
  {| Marc.leader := "00000nas a2200000 a 4500";
     Marc.control := [("001", "x"); ("008", general)];
     Marc.data := [("035", [("a", "(Nz)" +:+ number)]);
                   ("245", [("a", "The Star")]);
                   ("260", [("a", "[Auckland, N.Z.] :"); ("b", "Star Office")]);
                   ("310", [("a", frequency)])] |}.

(** A weekly paper, marked as currently published, with 1999 as final
    year. *)
Definition star : Marc.record := serial "8000996" "Weekly." (info "c" "1970" "1999").

Definition monthly : Marc.record := serial "8000996" "Monthly." (info "c" "1970" "9999").

Definition stored : newspaper :=
  {| id := "12"; title := Some "The Star"; genre := "Newspaper";
     idMarcControlNumber := Some "8000996"; isCurrent := false;
     firstYear := "19uu"; finalYear := "1999"; frequency := None;
     placename := "Auckland"; placecode := "02-01";
     district := "Auckland"; region := "Auckland" |}.

(** Two records of one run: the first matches [stored], the second is
    new. *)
Definition known : Marc.record := serial "8000996" "Weekly." (info "d" "1970" "1999").

Definition daily : Marc.record := serial "7000001" "Daily" (info "c" "1985" "9999").

(** Two records with one control number and different final years, and a
    stored record they both match. *)
Definition first1uuu : Marc.record := serial "8000996" "Weekly." (info "d" "1970" "1uuu").

Definition then2uuu : Marc.record := serial "8000996" "Weekly." (info "d" "1970" "2uuu").

Definition vague : newspaper :=
  {| id := "12"; title := Some "The Star"; genre := "Newspaper";
     idMarcControlNumber := Some "8000996"; isCurrent := false;
     firstYear := "1970"; finalYear := "1uuu"; frequency := None;
     placename := "Auckland"; placecode := "02-01";
     district := "Auckland"; region := "Auckland" |}.

End Sample.

(** ** The page script, and the vocabulary of further properties *)

(** *** Partial dates *)

Module Page.

(** [prettyYear] of the page script: a partial year in words. *)
Definition prettyYear (year : string) : string :=
  if Js.endsWith year "uuuu" then "an unknown date"
  else if Js.endsWith year "uu" then
    let century := Js.substring 0 2 year in
    "sometime in the " +:+ century +:+ "00's"
  else if Js.endsWith year "u" then
    let decade := Js.substring 0 3 year in
    "sometime in the " +:+ decade +:+ "0's"
  else year.

End Page.

(** The string of [k] copies of a character. *)
Fixpoint repeated (c : ascii) (k : nat) : string :=
  match k with
  | 0 => ""
  | S k' => String c (repeated c k')
  end.

(** The number of copies of [c] a string ends with. *)
Fixpoint trailing (c : ascii) (s : string) : nat :=
  match s with
  | EmptyString => 0
  | String a s' =>
      let n := trailing c s' in
      if (n =? String.length s') && Ascii.eqb a c then S n else n
  end.

(** *** Place names and format flags *)

(** [name] after the bracket test of [placeCleanUp]. *)
Definition unbracketed (rawName : string) : string :=
  if Js.eqs (Js.charAt 0 rawName) "[" then Js.dropFirst rawName else rawName.

(** The subfields that raise the two format flags. *)
Definition mediumElectronic (pair : string * string) : bool :=
  Js.eqs pair.1 "h" && Js.startsWith pair.2 "[electronic resource]".

Definition mediumMicroform (pair : string * string) : bool :=
  Js.eqs pair.1 "h" && Js.startsWith pair.2 "[microform]".

Definition extentMicroform (pair : string * string) : bool :=
  Js.eqs pair.1 "a" && Js.includes pair.2 "microf".

Definition extentElectronic (pair : string * string) : bool :=
  Js.eqs pair.1 "a" && negb (Js.includes pair.2 "microf") &&
  (Js.includes pair.2 "online resource" || Js.includes pair.2 "electronic documents").

(** *** The scan of the existing records *)



(** *** The handler, case by case *)

(** The value of a counter of [stats]; a counter that was never raised
    reads 0. *)
Definition counter (label : string) (st : state) : nat :=
  default 0 (stats st !! label).

(** The counters of which the handler raises exactly one per newspaper
    record. *)
Definition classified (st : state) : nat :=
  counter "count-skipped-no-nz-control-number" st +
  counter "count-skipped-micoform" st +
  counter "count-skipped-electronic" st +
  counter "count-skipped-infrequent" st +
  counter "count-skipped-placename" st +
  counter "count-existing-record" st +
  counter "count-new-record" st.

(** What the counters keep from one record to the next. *)
Definition consistent (st : state) : Prop :=
  newspaperCounter st <= serialCounter st /\
  serialCounter st <= recordCounter st /\
  classified st = newspaperCounter st /\
  counter "count-existing-record-updated" st <= counter "count-existing-record" st /\
  counter "count-new-record-since-last-load" st <= counter "count-new-record" st /\
  length (newspaperWrites st)
  = counter "count-existing-record-updated" st + counter "count-new-record" st.

(** The fields of a stored record the update branch never assigns. *)
Definition fixedFields (paper : newspaper) :=
  (id paper, title paper, genre paper, idMarcControlNumber paper,
   frequency paper, placename paper, placecode paper, district paper,
   region paper).

(** A stored record after some updates: the same but for the three fields
    of the update branch, and a year that does not end in "u" is the year
    it was. *)
Definition kept (paper paper' : newspaper) : Prop :=
  fixedFields paper' = fixedFields paper /\
  (Js.endsWith (firstYear paper) "u" = false -> firstYear paper' = firstYear paper) /\
  (Js.endsWith (finalYear paper) "u" = false -> finalYear paper' = finalYear paper).

(** The event of the MARC text file, when the file is written. *)
Definition marcFileEvents (newspaperId marcControlNumber : option string)
    (r : Marc.record) : list event :=
  match newspaperId with
  | Some found =>
      if Js.truthy found && negb (Js.falsy marcControlNumber)
      then [WriteMarcFile found r] else []
  | None => []
  end.

(** What an event does to the store. *)
Definition storeEvent (papers : gmap string newspaper) (e : event)
  : gmap string newspaper :=
  match e with
  | WriteNewspaper newspaperId written _ => <[newspaperId := written]> papers
  | WriteMarcFile _ _ => papers
  end.

Section Handler.

Variable titleCleanup : option string -> option string.
Variable getNextNewspaperId : gmap string newspaper -> string.

(** The cases of the handler on one record: whether the record counts as a
    serial and as a newspaper, the counters of [stats] it raises and the
    events it emits. *)
Inductive handlerCase (idx : gmap string string) (pd : gmap string place)
    (st : state) (r : Marc.record)
  : bool -> bool -> list string -> list event -> Prop :=
  | handler_other (serial : bool) :
      newspaperInfo r = None ->
      handlerCase idx pd st r serial false [] []
  | handler_skipped (info counter : string) :
      newspaperInfo r = Some info ->
      firstSkip (skipRules (parse titleCleanup idx r info)) = Some counter ->
      handlerCase idx pd st r true true [counter]
        (marcFileEvents (Bib.newspaperId (parse titleCleanup idx r info))
           (Bib.marcControlNumber (parse titleCleanup idx r info)) r)
  | handler_existing (info newspaperId number : string) (paper : newspaper) :
      newspaperInfo r = Some info ->
      firstSkip (skipRules (parse titleCleanup idx r info)) = None ->
      Bib.newspaperId (parse titleCleanup idx r info) = Some newspaperId ->
      Bib.marcControlNumber (parse titleCleanup idx r info) = Some number ->
      Js.truthy number = true ->
      store st !! newspaperId = Some paper ->
      handlerCase idx pd st r true true
        ("count-existing-record" ::
         if (updateFields paper (Bib.date1 (parse titleCleanup idx r info))
               (Bib.date2 (parse titleCleanup idx r info))).2
         then ["count-existing-record-updated"] else [])
        ((if (updateFields paper (Bib.date1 (parse titleCleanup idx r info))
                (Bib.date2 (parse titleCleanup idx r info))).2
          then [WriteNewspaper newspaperId
                  (updateFields paper (Bib.date1 (parse titleCleanup idx r info))
                     (Bib.date2 (parse titleCleanup idx r info))).1
                  (updateSource number)]
          else []) ++
         marcFileEvents (Some newspaperId) (Some number) r)
  | handler_new (info number cleaned : string) :
      newspaperInfo r = Some info ->
      firstSkip (skipRules (parse titleCleanup idx r info)) = None ->
      Bib.newspaperId (parse titleCleanup idx r info) = None ->
      Bib.marcControlNumber (parse titleCleanup idx r info) = Some number ->
      Js.truthy number = true ->
      Bib.placename (parse titleCleanup idx r info) = Some cleaned ->
      handlerCase idx pd st r true true
        ("count-new-record" ::
         if Js.gts (Bib.dateOnFile (parse titleCleanup idx r info)) "130402"
         then ["count-new-record-since-last-load"] else [])
        (WriteNewspaper (getNextNewspaperId (store st))
           (newRecord titleCleanup pd (getNextNewspaperId (store st)) number
              cleaned (parse titleCleanup idx r info))
           (createSource number) ::
         marcFileEvents (Some (getNextNewspaperId (store st))) (Some number) r).

End Handler.

(** *** Rows of the tab-separated file, and strings *)

(** The cell of the last column of a row that writes to a property. *)
Definition lastWrite (field : string) (record : Tsv.row) : option string :=
  last (omap (fun column : string * string =>
                if Tsv.writes field column then Some column.2 else None) record).

(** Every character of a string passes a test. *)
Fixpoint allOf (p : ascii -> bool) (s : string) : bool :=
  match s with
  | EmptyString => true
  | String c s' => p c && allOf p s'
  end.

(** * Theorems *)

Lemma endsWith_occurs (c : ascii) (s : string) :
  Js.endsWith s (String c "") = true -> Js.occurs c s = true.
Proof.
  induction s as [|a s IH]; cbn [Js.endsWith Js.occurs].
  - discriminate.
  - intros H. apply orb_true_iff in H as [H|H].
    + unfold Js.eqs in H. apply String.eqb_eq in H. injection H as -> _.
      rewrite Ascii.eqb_refl. reflexivity.
    + rewrite (IH H). apply orb_true_r.
Qed.

(** C1: [isNewDateMoreSpecific] is the specification's decision table read
    in order, first matching rule winning; the table always has a matching
    rule.  The function is false whenever the current date has no "u" in it,
    and the literal cases of the specification evaluate as stated. *)
Theorem C1_isNewDateMoreSpecific_table :
  (forall current candidate : string,
     DateTable.isMoreSpecific current candidate
     = Some (isNewDateMoreSpecific current candidate)) /\
  (forall current candidate : string,
     Js.occurs "u"%char current = false ->
     isNewDateMoreSpecific current candidate = false) /\
  isNewDateMoreSpecific "9999" "1970" = false /\
  isNewDateMoreSpecific "uuuu" "1970" = true /\
  isNewDateMoreSpecific "1uuu" "1970" = true /\
  isNewDateMoreSpecific "19uu" "197u" = true /\
  isNewDateMoreSpecific "19uu" "1uuu" = false /\
  isNewDateMoreSpecific "197u" "19uu" = false /\
  isNewDateMoreSpecific "197u" "1970" = true.
Proof.
  split; [|split; [|repeat split; reflexivity]].
  - intros c n.
    unfold DateTable.isMoreSpecific, DateTable.rules, isNewDateMoreSpecific,
      DateTable.unknownOrOngoing, DateTable.endsInExactly.
    cbn [DateTable.firstMatch].
    destruct (Js.endsWith c "u"), (Js.endsWith c "uu"), (Js.endsWith c "uuu"),
      (Js.eqs n "9999"), (Js.eqs n "uuuu"), (Js.eqs c "9999"), (Js.eqs c "uuuu");
      reflexivity.
  - intros c n Hno. unfold isNewDateMoreSpecific.
    destruct (Js.endsWith c "u") eqn:E; [|reflexivity].
    apply endsWith_occurs in E. congruence.
Qed.

(** ** Place names *)

Lemma removeFirst_absent (c : ascii) (s : string) :
  Js.occurs c s = false -> Js.removeFirst c s = s.
Proof.
  induction s as [|a s IH]; cbn; [reflexivity|].
  destruct (Ascii.eqb a c); cbn; [discriminate|].
  intros H. by rewrite IH.
Qed.

Lemma removeFirst_split (c : ascii) (s : string) :
  Js.occurs c s = true ->
  exists pre post, s = pre +:+ String c post /\ Js.occurs c pre = false /\
                   Js.removeFirst c s = pre +:+ post.
Proof.
  induction s as [|a s IH]; cbn; [discriminate|].
  destruct (Ascii.eqb a c) eqn:E; cbn.
  - intros _. apply Ascii.eqb_eq in E as ->. by exists "", s.
  - intros H. destruct (IH H) as (pre & post & -> & Hpre & ->).
    exists (String a pre), post. cbn. by rewrite E, Hpre.
Qed.

Lemma count_removeFirst (c : ascii) (s : string) :
  Js.count c (Js.removeFirst c s) = pred (Js.count c s).
Proof.
  induction s as [|a s IH]; cbn; [reflexivity|].
  destruct (Ascii.eqb a c) eqn:E; cbn; [reflexivity|].
  rewrite E. exact IH.
Qed.

Lemma count_zero_occurs (c : ascii) (s : string) :
  Js.count c s = 0 -> Js.occurs c s = false.
Proof.
  induction s as [|a s IH]; cbn; [reflexivity|].
  destruct (Ascii.eqb a c); cbn; [discriminate|]. exact IH.
Qed.

(** The place of the specification's example comes out as stated when the
    title clean-up leaves it alone. *)
Example placeCleanUp_auckland :
  placeCleanUp (fun name => name) "[Auckland, N.Z.]" = Some "Auckland" /\
  placeCleanUp (fun name => name) "" = None /\
  placeCleanUp (fun name => name) "Apia, Samoa" = None.
Proof. by vm_compute. Qed.

(** C7, as stated, fails: the accepted name "Auckland??" reaches the title
    clean-up as "Auckland?", which still ends in a question mark. *)
Lemma C7_counterexample_two_question_marks :
  placeBeforeCleanup "Auckland??" = Some "Auckland?" /\
  Js.endsWith "Auckland?" "?" = true /\
  placeCleanUp (fun name => name) "Auckland??" = Some "Auckland?".
Proof. by vm_compute. Qed.

(** C7 (amended): for a raw place that is not rejected, the name handed to
    the title clean-up is the truncated name with exactly its first "?"
    taken out, wherever that "?" stands; every other character stays.  So
    the name has one "?" less than the truncated name, and it ends in no "?"
    when the truncated name has at most one. *)
Theorem C7_placeCleanUp_removes_first_question_mark
    (titleCleanup : option string -> option string) (rawName name : string) :
  placeBeforeCleanup rawName = Some name ->
  placeCleanUp titleCleanup rawName = titleCleanup (Some name) /\
  Js.count "?" name = pred (Js.count "?" (placeTruncate rawName)) /\
  ((Js.occurs "?" (placeTruncate rawName) = false /\ name = placeTruncate rawName) \/
   (exists pre post,
      placeTruncate rawName = pre +:+ String "?" post /\
      Js.occurs "?" pre = false /\ name = pre +:+ post)) /\
  (Js.count "?" (placeTruncate rawName) <= 1 -> Js.endsWith name "?" = false).
Proof.
  intros Hname. unfold placeCleanUp. rewrite Hname.
  unfold placeBeforeCleanup in Hname.
  destruct (negb (Js.truthy rawName)); [discriminate|].
  destruct (excludedPlace rawName); [discriminate|].
  injection Hname as <-.
  split; [reflexivity|]. split; [apply count_removeFirst|]. split.
  - destruct (Js.occurs "?" (placeTruncate rawName)) eqn:E.
    + right. destruct (removeFirst_split _ _ E) as (pre & post & H1 & H2 & H3).
      exists pre, post. by rewrite H3.
    + left. by rewrite removeFirst_absent.
  - intros Hle.
    destruct (Js.endsWith _ "?") eqn:E; [|reflexivity].
    apply endsWith_occurs in E.
    rewrite count_zero_occurs in E; [discriminate|].
    rewrite count_removeFirst. lia.
Qed.

Lemma C7_placeCleanUp_witness :
  placeBeforeCleanup "[Auckland?, N.Z.]" = Some "Auckland" /\
  Js.endsWith "Auckland" "?" = false.
Proof.
  assert (H : placeBeforeCleanup "[Auckland?, N.Z.]" = Some "Auckland")
    by reflexivity.
  split; [exact H|].
  apply (C7_placeCleanUp_removes_first_question_mark (fun name => name) _ _ H).
  vm_compute. lia.
Defined.

(** ** Mode of operation *)

(** C8: with no argument after the script name the mode selection throws
    before its [switch], so no mode is chosen and the run stops there.  With
    a first argument it returns one of the four modes, and "report" for
    every argument that is none of the other three. *)
Theorem C8_selectMode_without_argument_throws :
  (exists message, Mode.selectMode [] = Thrown message) /\
  (forall arg0 rest, exists mode,
     Mode.selectMode (arg0 :: rest) = Returned mode /\
     mode ∈ ["report"; "add-new-records"; "update-existing-records";
             "update-marc-files"] /\
     (Mode.toLowerCase arg0 ∉ ["add-new-records"; "update-existing-records";
                               "update-marc-files"] -> mode = "report")).
Proof.
  split; [by eexists|].
  intros arg0 rest. eexists. split; [reflexivity|].
  unfold Mode.switchMode, Js.eqs.
  repeat match goal with
  | |- context [String.eqb ?a ?b] =>
      let E := fresh "E" in
      destruct (String.eqb a b) eqn:E;
      [apply String.eqb_eq in E|apply String.eqb_neq in E]
  end; split; try set_solver.
Qed.

(** ** The tab-separated import *)

Lemma eqs_true (s t : string) : Js.eqs s t = true <-> s = t.
Proof. apply String.eqb_eq. Qed.

Lemma eqs_false (s t : string) : Js.eqs s t = false <-> s <> t.
Proof. apply String.eqb_neq. Qed.

Ltac eqs_cases :=
  repeat match goal with
  | |- context [Js.eqs ?a ?b] =>
      let E := fresh "E" in
      destruct (Js.eqs a b) eqn:E;
      [apply eqs_true in E|apply eqs_false in E]
  | H : context [Js.eqs ?a ?b] |- _ =>
      let E := fresh "E" in
      destruct (Js.eqs a b) eqn:E;
      [apply eqs_true in E|apply eqs_false in E]
  end.

(** A column leaves a property alone unless it writes to it. *)
Lemma mergeColumn_frame (newspaper : Tsv.document) (column : string * string)
    (field : string) :
  Tsv.writes field column = false ->
  Tsv.mergeColumn newspaper column !! field = newspaper !! field.
Proof.
  destruct column as [key cell].
  unfold Tsv.writes, Tsv.target, Tsv.special, Tsv.mergeColumn. cbn [fst snd].
  intros H. eqs_cases; cbn in *; eqs_cases; cbn in *;
    try reflexivity; try discriminate;
    rewrite lookup_insert_ne; congruence.
Qed.

Lemma mergeRow_frame (record : Tsv.row) (newspaper : Tsv.document) (field : string) :
  Tsv.writesTo field record = false ->
  Tsv.mergeRow record newspaper !! field = newspaper !! field.
Proof.
  unfold Tsv.mergeRow, Tsv.writesTo. revert newspaper.
  induction record as [|column record IH]; intros newspaper H; cbn in *;
    [reflexivity|].
  apply orb_false_iff in H as [H1 H2].
  rewrite IH by exact H2. by apply mergeColumn_frame.
Qed.

Lemma writesTo_false (record : Tsv.row) (field : string) :
  (forall key cell, (key, cell) ∈ record -> Tsv.target key = Some field ->
                    Tsv.special key = false /\ cell = "") ->
  Tsv.writesTo field record = false.
Proof.
  intros H. unfold Tsv.writesTo.
  destruct (existsb (Tsv.writes field) record) eqn:E; [|reflexivity].
  apply existsb_exists in E as ([key cell] & Hin & Hw).
  apply list_elem_of_In in Hin. specialize (H key cell Hin).
  unfold Tsv.writes in Hw. cbn [fst snd] in Hw.
  destruct (Tsv.target key) as [f|]; [|discriminate].
  apply andb_true_iff in Hw as [Hf Hw]. apply eqs_true in Hf as ->.
  destruct (H eq_refl) as [Hs ->]. rewrite Hs in Hw. discriminate.
Qed.






(** C10: in the loop over the columns of a row, a generic column with an
    empty cell changes nothing; "Current?" and "Placecode" write their cell
    to "is-current" and "nzn-placecode" whatever the cell is, the empty
    string included; and over the whole row a property keeps its value when
    every column mapped to it is a generic column with an empty cell, in
    particular when no column is mapped to it. *)
Theorem C10_merge_frame :
  (forall (newspaper : Tsv.document) (key : string),
     Tsv.special key = false -> Tsv.mergeColumn newspaper (key, "") = newspaper) /\
  (forall (newspaper : Tsv.document) (cell : string),
     Tsv.mergeColumn newspaper ("Current?", cell) !! "is-current"
     = Some (Tsv.JStr cell) /\
     Tsv.mergeColumn newspaper ("Placecode", cell) !! "nzn-placecode"
     = Some (Tsv.JStr cell)) /\
  (forall (before after : Tsv.row) (newspaper : Tsv.document) (cell : string),
     Tsv.writesTo "is-current" after = false ->
     Tsv.mergeRow (before ++ ("Current?", cell) :: after) newspaper !! "is-current"
     = Some (Tsv.JStr cell)) /\
  (forall (before after : Tsv.row) (newspaper : Tsv.document) (cell : string),
     Tsv.writesTo "nzn-placecode" after = false ->
     Tsv.mergeRow (before ++ ("Placecode", cell) :: after) newspaper !! "nzn-placecode"
     = Some (Tsv.JStr cell)) /\
  (forall (record : Tsv.row) (newspaper : Tsv.document) (field : string),
     (forall key cell, (key, cell) ∈ record -> Tsv.target key = Some field ->
                       Tsv.special key = false /\ cell = "") ->
     Tsv.mergeRow record newspaper !! field = newspaper !! field) /\
  (forall (record : Tsv.row) (newspaper : Tsv.document) (field : string),
     (forall key cell, (key, cell) ∈ record -> Tsv.target key <> Some field) ->
     Tsv.mergeRow record newspaper !! field = newspaper !! field).
Proof.
  split; [|split; [|split; [|split; [|split]]]].
  - intros newspaper key. unfold Tsv.special, Tsv.mergeColumn.
    intros H. eqs_cases; cbn in *; done.
  - intros newspaper cell. split; cbn; apply lookup_insert_eq.
  - intros before after newspaper cell H. unfold Tsv.mergeRow.
    rewrite fold_left_app. cbn [fold_left].
    fold (Tsv.mergeRow after). rewrite mergeRow_frame by exact H.
    cbn. apply lookup_insert_eq.
  - intros before after newspaper cell H. unfold Tsv.mergeRow.
    rewrite fold_left_app. cbn [fold_left].
    fold (Tsv.mergeRow after). rewrite mergeRow_frame by exact H.
    cbn. apply lookup_insert_eq.
  - intros record newspaper field H. apply mergeRow_frame.
    by apply writesTo_false.
  - intros record newspaper field H. apply mergeRow_frame.
    apply writesTo_false. intros key cell Hin Ht. by destruct (H key cell Hin).
Qed.

Lemma C10_merge_frame_witness :
  Tsv.mergeRow [("Id", "7"); ("Title", ""); ("Current?", ""); ("Placecode", "")]
    {[ "title" := Tsv.JStr "Star"; "genre" := Tsv.JStr "Newspaper";
       "is-current" := Tsv.JStr "Yes" ]} !! "title" = Some (Tsv.JStr "Star") /\
  Tsv.mergeRow [("Id", "7"); ("Title", ""); ("Current?", ""); ("Placecode", "")]
    {[ "title" := Tsv.JStr "Star"; "genre" := Tsv.JStr "Newspaper";
       "is-current" := Tsv.JStr "Yes" ]} !! "is-current" = Some (Tsv.JStr "").
Proof.
  destruct C10_merge_frame as (_ & _ & Hcur & _ & Hrow & _).
  split.
  - rewrite Hrow; [reflexivity|].
    intros key cell Hin Ht.
    repeat (apply elem_of_cons in Hin as [Hin|Hin];
            [injection Hin as -> ->; first [discriminate Ht | by split]|]).
    by apply elem_of_nil in Hin.
  - apply (Hcur [("Id", "7"); ("Title", "")] [("Placecode", "")]). reflexivity.
Defined.

(** ** The MARC reconciliation *)

Lemma addStats_lookup (label : string) (stats : gmap string nat) :
  addStats label stats !! label = Some (S (default 0 (stats !! label))).
Proof.
  unfold addStats. destruct (stats !! label) as [[|n]|]; cbn;
    by rewrite lookup_insert_eq.
Qed.

Lemma addStats_lookup_ne (label other : string) (stats : gmap string nat) :
  label <> other -> addStats label stats !! other = stats !! other.
Proof.
  intros H. unfold addStats. destruct (stats !! label) as [[|n]|];
    by rewrite lookup_insert_ne.
Qed.

Lemma newspaperWrites_marcFile (nid mcn : option string) (r : Marc.record)
    (st : state) :
  newspaperWrites (writeMarcFile nid mcn r st) = newspaperWrites st /\
  store (writeMarcFile nid mcn r st) = store st /\
  stats (writeMarcFile nid mcn r st) = stats st.
Proof.
  unfold writeMarcFile, newspaperWrites.
  destruct nid as [found|]; [|done].
  destruct (Js.truthy found && negb (Js.falsy mcn)); [|done].
  cbn. rewrite filter_app. cbn. by rewrite app_nil_r.
Qed.

Lemma controlNumber_fold (idx : gmap string string) (pairs : list (string * string))
    (acc : option string * list string * option string) :
  let result := fold_left (controlNumberStep idx) pairs acc in
  result.1.2 = acc.1.2 ++ omap nzNumber pairs /\
  result.1.1 = from_option Some acc.1.1 (last (omap nzNumber pairs)) /\
  result.2 = fold_left (fun found number => from_option Some found (lookupId idx number))
               (omap nzNumber pairs) acc.2.
Proof.
  revert acc. induction pairs as [|pair pairs IH]; intros acc.
  - cbn. by rewrite app_nil_r.
  - cbn [fold_left]. cbv zeta in IH |- *.
    destruct (IH (controlNumberStep idx acc pair)) as (IH1 & IH2 & IH3).
    rewrite IH1, IH2, IH3. clear IH IH1 IH2 IH3.
    destruct acc as [[m l] n].
    assert (Hstep : controlNumberStep idx (m, l, n) pair
              = match nzNumber pair with
                | Some number =>
                    (Some number, l ++ [number],
                     from_option Some n (lookupId idx number))
                | None => (m, l, n)
                end).
    { unfold controlNumberStep, nzNumber.
      destruct (Js.eqs pair.1 "a" && Js.startsWith pair.2 "(Nz)"); [|done].
      by destruct (lookupId idx (Js.drop 4 pair.2)). }
    rewrite Hstep.
    change (omap nzNumber (pair :: pairs))
      with (match nzNumber pair with
            | Some number => number :: omap nzNumber pairs
            | None => omap nzNumber pairs
            end).
    destruct (nzNumber pair) as [number|]; cbn [fst snd fold_left]; [|done].
    rewrite <- app_assoc. split; [done|]. split; [|done].
    destruct (omap nzNumber pairs) as [|y rest]; [done|].
    change (last (number :: y :: rest)) with (last (y :: rest)).
    destruct (last (y :: rest)) eqn:El; [done|]. by apply last_None in El.
Qed.

Section ParseFacts.
Variable titleCleanup : option string -> option string.

Lemma parse_numbers (idx : gmap string string) (r : Marc.record) (info : string) :
  Bib.marcControlNumberList (parse titleCleanup idx r info) = nzNumbers r /\
  Bib.marcControlNumber (parse titleCleanup idx r info) = last (nzNumbers r) /\
  Bib.newspaperId (parse titleCleanup idx r info) = resolve idx (nzNumbers r).
Proof.
  destruct (controlNumber_fold idx (Marc.subfields "035" r) (None, [], None))
    as (H1 & H2 & H3).
  cbn. rewrite H1, H2, H3. cbn. split; [done|]. split; [|done].
  unfold nzNumbers. by destruct (last _).
Qed.

Lemma skipRules_index (idx idx' : gmap string string) (r : Marc.record) (info : string) :
  skipRules (parse titleCleanup idx r info) = skipRules (parse titleCleanup idx' r info).
Proof.
  unfold skipRules.
  destruct (parse_numbers idx r info) as (_ & -> & _).
  destruct (parse_numbers idx' r info) as (_ & -> & _). reflexivity.
Qed.
End ParseFacts.

Section ReconciliationFacts.

Variable titleCleanup : option string -> option string.
Variable getNextNewspaperId : gmap string newspaper -> string.

Abbreviation parse' := (parse titleCleanup).
Abbreviation onData' := (onData titleCleanup getNextNewspaperId).
Abbreviation classify' := (classify titleCleanup getNextNewspaperId).

Lemma onData_newspaper (idx : gmap string string) (pd : gmap string place)
    (st : state) (r : Marc.record) (info : string) :
  newspaperInfo r = Some info ->
  onData' idx pd st r =
  match classify' pd (parse' idx r info)
          (countNewspaper (countSerial (countRecord st))) with
  | Returned (st', nid) =>
      Returned (writeMarcFile nid (Bib.marcControlNumber (parse' idx r info)) r st')
  | Thrown message => Thrown message
  end.
Proof.
  unfold newspaperInfo, onData. intros H.
  destruct (Js.eqs (Js.charAt 6 (Marc.leader r)) "a"
            && Js.eqs (Js.charAt 7 (Marc.leader r)) "s"); [|discriminate].
  destruct (Marc.generalInfoValue r) as [v|]; [|discriminate].
  destruct (Js.eqs (Js.charAt 21 v) "n"); [|discriminate].
  by injection H as ->.
Qed.

Lemma onData_other (idx : gmap string string) (pd : gmap string place)
    (st : state) (r : Marc.record) :
  newspaperInfo r = None ->
  exists st', onData' idx pd st r = Returned st' /\
              store st' = store st /\ stats st' = stats st /\
              events st' = events st.
Proof.
  unfold newspaperInfo, onData. intros H.
  destruct (Js.eqs (Js.charAt 6 (Marc.leader r)) "a"
            && Js.eqs (Js.charAt 7 (Marc.leader r)) "s"); [|by eexists].
  destruct (Marc.generalInfoValue r) as [v|]; [|by eexists].
  destruct (Js.eqs (Js.charAt 21 v) "n"); [discriminate|by eexists].
Qed.



Lemma classify_skip (pd : gmap string place) (p : Bib.parsed) (st : state)
    (counter : string) :
  firstSkip (skipRules p) = Some counter ->
  classify' pd p st = Returned (withStats counter st, Bib.newspaperId p).
Proof.
  unfold skipRules, classify. cbn [firstSkip].
  destruct (Js.falsy (Bib.marcControlNumber p)); [by intros [= <-]|].
  destruct (Bib.isMicroformResource p); [by intros [= <-]|].
  destruct (Bib.isElectronicResource p); [by intros [= <-]|].
  destruct (Bib.infrequent p); [by intros [= <-]|].
  destruct (Js.falsy (Bib.placename p)); [by intros [= <-]|]. discriminate.
Qed.

Lemma classify_pass (pd : gmap string place) (p : Bib.parsed) (st : state) :
  firstSkip (skipRules p) = None ->
  exists number placename,
    Bib.marcControlNumber p = Some number /\ Js.truthy number = true /\
    Bib.placename p = Some placename /\ Js.truthy placename = true /\
    classify' pd p st =
    match Bib.newspaperId p with
    | Some newspaperId =>
        match updateExisting newspaperId number p st with
        | Returned st' => Returned (st', Some newspaperId)
        | Thrown message => Thrown message
        end
    | None =>
        Returned ((addNew titleCleanup getNextNewspaperId pd number placename p st).1,
                  Some (getNextNewspaperId (store st)))
    end.
Proof.
  unfold skipRules, classify. cbn [firstSkip].
  destruct (Bib.marcControlNumber p) as [number|]; cbn; [|discriminate].
  destruct (Js.truthy number) eqn:En; cbn; [|discriminate].
  destruct (Bib.isMicroformResource p); [discriminate|].
  destruct (Bib.isElectronicResource p); [discriminate|].
  destruct (Bib.infrequent p); [discriminate|].
  destruct (Bib.placename p) as [placename|]; cbn; [|discriminate].
  destruct (Js.truthy placename) eqn:Ep; cbn; [|discriminate].
  intros _. exists number, placename. repeat split; try done.
Qed.

Lemma onData_skipped (idx : gmap string string) (pd : gmap string place)
    (st : state) (r : Marc.record) (info counter : string) :
  newspaperInfo r = Some info ->
  firstSkip (skipRules (parse' idx r info)) = Some counter ->
  exists st', onData' idx pd st r = Returned st' /\
    store st' = store st /\
    newspaperWrites st' = newspaperWrites st /\
    stats st' = addStats counter (stats st).
Proof.
  intros Hinfo Hskip. rewrite (onData_newspaper _ _ _ _ _ Hinfo).
  rewrite (classify_skip _ _ _ _ Hskip). eexists. split; [reflexivity|].
  match goal with
  | |- context [writeMarcFile ?a ?b ?c ?d] =>
      destruct (newspaperWrites_marcFile a b c d) as (-> & -> & ->)
  end.
  done.
Qed.

Lemma onData_existing (idx : gmap string string) (pd : gmap string place)
    (st : state) (r : Marc.record) (info newspaperId : string) (paper : newspaper) :
  newspaperInfo r = Some info ->
  let p := parse' idx r info in
  firstSkip (skipRules p) = None ->
  Bib.newspaperId p = Some newspaperId ->
  store st !! newspaperId = Some paper ->
  exists st' number,
    Bib.marcControlNumber p = Some number /\
    onData' idx pd st r = Returned st' /\
    let updated := (updateFields paper (Bib.date1 p) (Bib.date2 p)).2 in
    let paper' := (updateFields paper (Bib.date1 p) (Bib.date2 p)).1 in
    store st' = (if updated then <[newspaperId := paper']> (store st) else store st) /\
    newspaperWrites st'
    = newspaperWrites st ++
      (if updated then [WriteNewspaper newspaperId paper' (updateSource number)]
       else []) /\
    stats st'
    = (if updated then addStats "count-existing-record-updated" else fun x => x)
        (addStats "count-existing-record" (stats st)).
Proof.
  intros Hinfo p Hpass Hid Hpaper.
  rewrite (onData_newspaper _ _ _ _ _ Hinfo). fold p.
  destruct (classify_pass pd p (countNewspaper (countSerial (countRecord st))) Hpass)
    as (number & place & Hnum & _ & _ & _ & ->).
  rewrite Hid. unfold updateExisting, readNewspaper.
  cbn [store withStats countNewspaper countSerial countRecord]. rewrite Hpaper.
  destruct (updateFields paper (Bib.date1 p) (Bib.date2 p)) as [paper' updated].
  destruct updated; eexists _, number; (split; [exact Hnum|]);
    (split; [reflexivity|]);
    match goal with
    | |- context [writeMarcFile ?a ?b ?c ?d] =>
        destruct (newspaperWrites_marcFile a b c d) as (-> & -> & ->)
    end; cbn; repeat split.
  - unfold newspaperWrites. cbn. by rewrite filter_app.
  - by rewrite app_nil_r.
Qed.

Lemma onData_new (idx : gmap string string) (pd : gmap string place)
    (st : state) (r : Marc.record) (info : string) :
  newspaperInfo r = Some info ->
  let p := parse' idx r info in
  firstSkip (skipRules p) = None ->
  Bib.newspaperId p = None ->
  exists st' number cleaned,
    Bib.marcControlNumber p = Some number /\ Js.truthy number = true /\
    Bib.placename p = Some cleaned /\
    onData' idx pd st r = Returned st' /\
    let newspaperId := getNextNewspaperId (store st) in
    let created := newRecord titleCleanup pd newspaperId number cleaned p in
    store st' = <[newspaperId := created]> (store st) /\
    newspaperWrites st'
    = newspaperWrites st ++ [WriteNewspaper newspaperId created (createSource number)] /\
    stats st'
    = (if Js.gts (Bib.dateOnFile p) "130402"
       then addStats "count-new-record-since-last-load" else fun x => x)
        (addStats "count-new-record" (stats st)).
Proof.
  intros Hinfo p Hpass Hid.
  rewrite (onData_newspaper _ _ _ _ _ Hinfo). fold p.
  destruct (classify_pass pd p (countNewspaper (countSerial (countRecord st))) Hpass)
    as (number & place & Hnum & Htruthy & Hplace & _ & ->).
  rewrite Hid. cbn [store withStats countNewspaper countSerial countRecord].
  eexists _, number, place.
  split; [exact Hnum|]. split; [exact Htruthy|]. split; [exact Hplace|].
  split; [reflexivity|].
  match goal with
  | |- context [writeMarcFile ?a ?b ?c ?d] =>
      destruct (newspaperWrites_marcFile a b c d) as (-> & -> & ->)
  end.
  unfold addNew. cbn [fst store withStats].
  destruct (Js.gts (Bib.dateOnFile p) "130402"); cbn; repeat split;
    unfold newspaperWrites; cbn; by rewrite filter_app.
Qed.

(** The three updates of the matched branch, as one expression. *)
Lemma updateFields_spec (paper : newspaper) (date1 date2 : string) :
  let overwrite (stored new : string) :=
    negb (Js.eqs stored new) && isNewDateMoreSpecific stored new in
  let first := if overwrite (firstYear paper) date1 then date1 else firstYear paper in
  let final := if overwrite (finalYear paper) date2 then date2 else finalYear paper in
  let current := Js.eqs final "9999" in
  let changed := overwrite (firstYear paper) date1 || overwrite (finalYear paper) date2
                 || negb (Bool.eqb (isCurrent paper) current) in
  let paper' := setIsCurrent current (setFinalYear final (setFirstYear first paper)) in
  updateFields paper date1 date2 = (paper', changed) /\
  (changed = false -> paper' = paper).
Proof.
  unfold updateFields. destruct paper as [i t g m c fy ly fr pn pc di re].
  cbn [firstYear finalYear isCurrent].
  destruct (negb (Js.eqs fy date1) && isNewDateMoreSpecific fy date1); cbn;
    destruct (negb (Js.eqs ly date2) && isNewDateMoreSpecific ly date2); cbn;
    match goal with
    | |- context [Bool.eqb c ?b] => destruct (Bool.eqb c b) eqn:E; cbn
    end;
    try apply Bool.eqb_prop in E; subst; split; try reflexivity; try discriminate.
Qed.

Lemma updateFields_unchanged (paper paper' : newspaper) (date1 date2 : string) :
  updateFields paper date1 date2 = (paper', false) -> paper' = paper.
Proof.
  destruct (updateFields_spec paper date1 date2) as [-> Hsame].
  intros [= <- Hc]. by apply Hsame.
Qed.

Lemma updateFields_number (paper : newspaper) (date1 date2 : string) :
  idMarcControlNumber (updateFields paper date1 date2).1 = idMarcControlNumber paper.
Proof. by destruct (updateFields_spec paper date1 date2) as [-> _]. Qed.

(** A second pass of the same dates over the updated document changes
    nothing. *)
Lemma updateFields_settled (paper : newspaper) (date1 date2 : string) :
  updateFields (updateFields paper date1 date2).1 date1 date2
  = ((updateFields paper date1 date2).1, false).
Proof.
  assert (Hrefl : forall d, Js.eqs d d = true)
    by (intros d; apply String.eqb_refl).
  unfold updateFields. destruct paper as [i t g m c fy ly fr pn pc di re]. cbn.
  destruct (negb (Js.eqs fy date1) && isNewDateMoreSpecific fy date1) eqn:E1; cbn;
    destruct (negb (Js.eqs ly date2) && isNewDateMoreSpecific ly date2) eqn:E2; cbn;
    match goal with
    | |- context [Bool.eqb c ?b] => destruct (Bool.eqb c b) eqn:E3
    end;
    cbn; repeat (rewrite ?Hrefl, ?E1, ?E2, ?E3, ?Bool.eqb_reflx; cbn);
    reflexivity.
Qed.



(** C3 (amended): for a newspaper record that passes the skip checks and
    whose control number resolves to no existing id, the record written
    under the next id has genre "Unknown", [isCurrent] equal to (type of
    date == "c"), the two dates of the 008 field, the control number and the
    cleaned place name, and placecode, district and region from the entry of
    the place table for that place name, or "unknown", "Unknown District",
    "Unknown Region" when the table has no such entry. *)
Theorem C3_new_record
    (idx : gmap string string) (pd : gmap string place) (st : state)
    (r : Marc.record) (info : string) :
  newspaperInfo r = Some info ->
  let p := parse' idx r info in
  firstSkip (skipRules p) = None ->
  Bib.newspaperId p = None ->
  exists st' number cleaned created,
    Bib.marcControlNumber p = Some number /\
    Bib.placename p = Some cleaned /\
    onData' idx pd st r = Returned st' /\
    store st' = <[getNextNewspaperId (store st) := created]> (store st) /\
    newspaperWrites st'
    = newspaperWrites st ++
      [WriteNewspaper (getNextNewspaperId (store st)) created (createSource number)] /\
    stats st' !! "count-new-record"
    = Some (S (default 0 (stats st !! "count-new-record"))) /\
    genre created = "Unknown" /\
    isCurrent created = Js.eqs (Bib.typeOfDate p) "c" /\
    firstYear created = Bib.date1 p /\
    finalYear created = Bib.date2 p /\
    idMarcControlNumber created = Some number /\
    placename created = cleaned /\
    (placecode created, district created, region created)
    = match pd !! cleaned with
      | Some entry => (place_placecode entry, place_district entry, place_region entry)
      | None => ("unknown", "Unknown District", "Unknown Region")
      end.
Proof.
  intros Hinfo p Hpass Hid.
  destruct (onData_new idx pd st r info Hinfo Hpass Hid)
    as (st' & number & cleaned & Hnum & _ & Hplace & Hrun & Hstore & Hwrites & Hstats).
  exists st', number, cleaned,
    (newRecord titleCleanup pd (getNextNewspaperId (store st)) number cleaned p).
  split; [exact Hnum|]. split; [exact Hplace|]. split; [exact Hrun|].
  split; [exact Hstore|]. split; [exact Hwrites|]. rewrite Hstats.
  split.
  { match goal with
    | |- context [if ?b then addStats _ else _] => destruct b
    end; cbv beta iota; [rewrite addStats_lookup_ne by done|];
      apply addStats_lookup. }
  cbn. repeat split. by destruct (pd !! cleaned).
Qed.

End ReconciliationFacts.



(** C3, as stated, fails: for a record of type of date "c" with final year
    1999 the record created has [isCurrent] true, although its [date2] is
    not "9999". *)
Lemma C3_counterexample_isCurrent :
  exists st' created,
    onData Sample.cleanup Sample.nextId ∅ ∅ (initialState ∅) Sample.star
    = Returned st' /\
    store st' !! "9" = Some created /\
    finalYear created = "1999" /\
    isCurrent created = true /\
    Js.eqs (finalYear created) "9999" = false.
Proof. eexists _, _. by vm_compute. Qed.

Lemma C3_new_record_witness :
  exists st' created,
    onData Sample.cleanup Sample.nextId ∅ ∅ (initialState ∅) Sample.star
    = Returned st' /\
    store st' = {[ "9" := created ]} /\
    isCurrent created = true /\
    (placecode created, district created, region created)
    = ("unknown", "Unknown District", "Unknown Region").
Proof.
  assert (Hinfo : newspaperInfo Sample.star = Some (Sample.info "c" "1970" "1999"))
    by reflexivity.
  assert (Hpass : firstSkip (skipRules (parse Sample.cleanup ∅
                     Sample.star (Sample.info "c" "1970" "1999"))) = None)
    by (vm_compute; reflexivity).
  assert (Hid : Bib.newspaperId (parse Sample.cleanup ∅
                   Sample.star (Sample.info "c" "1970" "1999")) = None)
    by (vm_compute; reflexivity).
  destruct (C3_new_record Sample.cleanup Sample.nextId ∅ ∅ (initialState ∅)
              Sample.star (Sample.info "c" "1970" "1999") Hinfo Hpass Hid)
    as (st' & number & cleaned & created & _ & Hplace & Hrun & Hstore & _ & _ & _
        & Hcur & _ & _ & _ & _ & Htriple).
  exists st', created. split; [exact Hrun|].
  split; [exact Hstore|]. split; [exact Hcur|].
  rewrite Htriple. injection Hplace as <-. reflexivity.
Defined.

(** ** The identifier index and two runs in a row *)


Lemma lookupId_truthy (idx : gmap string string) (m : string) :
  truthyValues idx -> lookupId idx m = idx !! m.
Proof.
  intros H. unfold lookupId. destruct (idx !! m) as [i|] eqn:E; [|done].
  by rewrite (H m i E).
Qed.

Lemma claim_cons (entry : string * newspaper) (entries : list (string * newspaper)) :
  omap claim (entry :: entries)
  = match claim entry with
    | Some c => c :: omap claim entries
    | None => omap claim entries
    end.
Proof. reflexivity. Qed.

Lemma scanRecords_spec (recs : gmap string newspaper)
    (entries : list (string * newspaper)) (idx : gmap string string)
    (pd : gmap string place) :
  truthyValues idx ->
  (forall e, e ∈ entries -> Js.truthy e.1 = true) ->
  match scanRecords recs entries idx pd with
  | Returned (idx', pd') =>
      NoDup (omap claim entries).*1 /\
      (forall m, m ∈ (omap claim entries).*1 -> idx !! m = None) /\
      (forall m i, idx' !! m = Some i <->
                   idx !! m = Some i \/ (m, i) ∈ omap claim entries)
  | Thrown _ =>
      ~ (NoDup (omap claim entries).*1 /\
         forall m, m ∈ (omap claim entries).*1 -> idx !! m = None)
  end.
Proof.
  revert idx pd. induction entries as [|[i paper] entries IH]; intros idx pd Hidx Hkeys.
  - cbn. split; [constructor|]. split; [intros m H; by apply elem_of_nil in H|].
    intros m i. split; [by left|]. intros [H|H]; [done|by apply elem_of_nil in H].
  - assert (Hrest : forall e, e ∈ entries -> Js.truthy e.1 = true)
      by (intros e He; apply Hkeys; by right).
    assert (Hi : Js.truthy i = true) by (apply (Hkeys (i, paper)); left).
    rewrite claim_cons. cbn [scanRecords].
    assert (Hc : claim (i, paper)
                 = match idMarcControlNumber paper with
                   | Some m => if Js.truthy m then Some (m, i) else None
                   | None => None
                   end) by reflexivity.
    rewrite Hc. clear Hc.
    destruct (idMarcControlNumber paper) as [m|]; cbv beta iota; [|by apply IH].
    destruct (Js.truthy m) eqn:Em; cbn [negb]; cbv beta iota; [|by apply IH].
    rewrite (lookupId_truthy idx m Hidx).
    destruct (idx !! m) as [first|] eqn:Elook.
    + intros [_ H]. specialize (H m). rewrite Elook in H.
      discriminate H. cbn. left.
    + set (pd' := match pd !! placename paper with Some _ => pd | None => _ end).
      assert (Hidx' : truthyValues (<[m := i]> idx)).
      { intros m' i' H. apply lookup_insert_Some in H as [[_ <-]|[_ H]]; [done|].
        by apply (Hidx m' i'). }
      specialize (IH (<[m := i]> idx) pd' Hidx' Hrest).
      destruct (scanRecords recs entries (<[m := i]> idx) pd') as [[idx' pd'']|msg].
      * destruct IH as (Hnd & Hnone & Hchar). cbn [fmap list_fmap fst].
        assert (Hm : m ∉ (omap claim entries).*1).
        { intros Hin. specialize (Hnone m Hin). by rewrite lookup_insert_eq in Hnone. }
        split; [by constructor|]. split.
        -- intros m' Hin. apply elem_of_cons in Hin as [->|Hin]; [done|].
           specialize (Hnone m' Hin).
           destruct (decide (m = m')) as [<-|Hne]; [done|].
           by rewrite lookup_insert_ne in Hnone.
        -- intros m' i'. rewrite Hchar, elem_of_cons. split.
           ++ intros [H|H]; [|by right; right].
              apply lookup_insert_Some in H as [[<- <-]|[_ H]]; [by right; left|by left].
           ++ intros [H|[H|H]]; [|injection H as -> ->|by right].
              ** left. rewrite lookup_insert_ne; [done|]. intros <-. congruence.
              ** left. apply lookup_insert_eq.
      * intros [Hnd Hnone]. apply IH. cbn [fmap list_fmap fst] in Hnd, Hnone.
        apply NoDup_cons in Hnd as [Hm Hnd]. split; [done|].
        intros m' Hin. rewrite lookup_insert_ne; [|intros <-; done].
        apply Hnone. by right.
Qed.

Lemma claim_Some (entry : string * newspaper) (m i : string) :
  claim entry = Some (m, i) <->
  idMarcControlNumber entry.2 = Some m /\ Js.truthy m = true /\ entry.1 = i.
Proof.
  unfold claim. destruct (idMarcControlNumber entry.2) as [m'|].
  - destruct (Js.truthy m') eqn:E; split.
    + by intros [= <- <-].
    + intros (H1 & _ & H3). injection H1 as ->. by rewrite H3.
    + discriminate.
    + intros (H1 & H2 & _). injection H1 as ->. congruence.
  - split; [discriminate|]. by intros (H & _).
Qed.

Lemma elem_of_claims (papers : gmap string newspaper) (m i : string) :
  (m, i) ∈ omap claim (map_to_list papers) <-> Claims papers m i.
Proof.
  rewrite list_elem_of_omap. unfold Claims. split.
  - intros ([i' paper] & Hin & Hc). apply elem_of_map_to_list in Hin.
    apply claim_Some in Hc as (H1 & H2 & H3). cbn in *. subst i'. by exists paper.
  - intros (paper & Hp & H1 & H2). exists (i, paper).
    split; [by apply elem_of_map_to_list|]. by apply claim_Some.
Qed.

Lemma NoDup_claims (entries : list (string * newspaper)) :
  NoDup entries.*1 ->
  (forall m e1 e2, e1 ∈ entries -> e2 ∈ entries ->
     claim e1 = Some (m, e1.1) -> claim e2 = Some (m, e2.1) -> e1.1 = e2.1) ->
  NoDup (omap claim entries).*1.
Proof.
  induction entries as [|e entries IH]; intros Hnd Huniq; [constructor|].
  cbn [fmap list_fmap] in Hnd. apply NoDup_cons in Hnd as [Hfresh Hnd].
  assert (IH' : NoDup (omap claim entries).*1).
  { apply IH; [done|]. intros m e1 e2 H1 H2. apply Huniq; by right. }
  rewrite claim_cons. destruct (claim e) as [[m i]|] eqn:Ec; [|done].
  cbn [fmap list_fmap fst]. constructor; [|done].
  intros Hin. apply list_elem_of_fmap in Hin as ([m' i'] & Hm & Hin).
  cbn in Hm. subst m'. apply list_elem_of_omap in Hin as (e2 & Hin2 & Hc2).
  pose proof Ec as Ec'. apply claim_Some in Ec' as (_ & _ & <-).
  pose proof Hc2 as Hc2'. apply claim_Some in Hc2' as (_ & _ & <-).
  apply Hfresh. rewrite (Huniq m e e2); [|by left|by right|done|done].
  by apply list_elem_of_fmap_2.
Qed.

Lemma truthyValues_empty : truthyValues ∅.
Proof. intros m i H. by rewrite lookup_empty in H. Qed.

Lemma buildIndex_Returned (papers : gmap string newspaper)
    (idx : gmap string string) (pd : gmap string place) :
  truthyKeys papers ->
  buildIndex papers = Returned (idx, pd) ->
  forall m i, idx !! m = Some i <-> Claims papers m i.
Proof.
  intros Hkeys Hrun m i. unfold buildIndex, getNewspaperRecords in Hrun.
  pose proof (scanRecords_spec papers (map_to_list papers) ∅ ∅ truthyValues_empty) as H.
  rewrite Hrun in H. destruct H as (_ & _ & Hchar).
  - intros [k paper] Hin. apply elem_of_map_to_list in Hin. by apply (Hkeys k paper).
  - rewrite Hchar, lookup_empty, elem_of_claims. split; [by intros [H|H]|by right].
Qed.

Lemma buildIndex_total (papers : gmap string newspaper) :
  truthyKeys papers -> uniqueClaims papers ->
  exists idx pd, buildIndex papers = Returned (idx, pd).
Proof.
  intros Hkeys Huniq. unfold buildIndex, getNewspaperRecords.
  pose proof (scanRecords_spec papers (map_to_list papers) ∅ ∅ truthyValues_empty) as H.
  destruct (scanRecords papers (map_to_list papers) ∅ ∅) as [[idx pd]|msg];
    [by exists idx, pd|].
  exfalso. apply H.
  - intros [k paper] Hin. apply elem_of_map_to_list in Hin. by apply (Hkeys k paper).
  - split; [|intros; apply lookup_empty].
    apply NoDup_claims; [apply NoDup_fst_map_to_list|].
    intros m [i1 p1] [i2 p2] H1 H2 Hc1 Hc2. cbn in *.
    apply (Huniq m); apply elem_of_claims, list_elem_of_omap; eauto.
Qed.

Lemma buildIndex_unique (papers : gmap string newspaper)
    (idx : gmap string string) (pd : gmap string place) :
  truthyKeys papers ->
  buildIndex papers = Returned (idx, pd) -> uniqueClaims papers.
Proof.
  intros Hkeys Hrun m i1 i2 H1 H2.
  apply (buildIndex_Returned papers idx pd Hkeys Hrun) in H1, H2. congruence.
Qed.

(** The id of the 035 loop is the id of the last number the index knows. *)
Lemma resolve_acc (idx : gmap string string) (numbers : list string)
    (found : option string) :
  fold_left (fun found number => from_option Some found (lookupId idx number))
    numbers found
  = from_option Some found (last (omap (lookupId idx) numbers)).
Proof.
  revert found. induction numbers as [|m numbers IH]; intros found; [done|].
  cbn [fold_left]. rewrite IH.
  change (omap (lookupId idx) (m :: numbers))
    with (match lookupId idx m with
          | Some i => i :: omap (lookupId idx) numbers
          | None => omap (lookupId idx) numbers
          end).
  destruct (lookupId idx m) as [i|]; cbn [from_option]; [|done].
  destruct (omap (lookupId idx) numbers) as [|j rest]; [done|].
  rewrite last_cons_cons.
  destruct (last (j :: rest)) eqn:El; [done|]. by apply last_None in El.
Qed.

Lemma resolve_last (idx : gmap string string) (numbers : list string) :
  resolve idx numbers = last (omap (lookupId idx) numbers).
Proof.
  unfold resolve. rewrite resolve_acc. by destruct (last _).
Qed.

Lemma resolve_ext (idx idx' : gmap string string) (numbers : list string) :
  (forall m, m ∈ numbers -> lookupId idx m = lookupId idx' m) ->
  resolve idx numbers = resolve idx' numbers.
Proof.
  intros H. rewrite !resolve_last. f_equal.
  induction numbers as [|m numbers IH]; [done|].
  cbn. rewrite (H m) by left. rewrite IH; [done|].
  intros m' Hin. apply H. by right.
Qed.

Lemma resolve_None (idx : gmap string string) (numbers : list string) (m : string) :
  resolve idx numbers = None -> m ∈ numbers -> lookupId idx m = None.
Proof.
  rewrite resolve_last. intros H Hin. apply last_None in H.
  destruct (lookupId idx m) as [i|] eqn:E; [|done].
  assert (Hi : i ∈ omap (lookupId idx) numbers)
    by (apply list_elem_of_omap; by exists m).
  rewrite H in Hi. by apply elem_of_nil in Hi.
Qed.

Lemma resolve_Some (idx : gmap string string) (numbers : list string) (i : string) :
  resolve idx numbers = Some i ->
  exists m, m ∈ numbers /\ lookupId idx m = Some i.
Proof.
  rewrite resolve_last. intros H. apply last_Some_elem_of in H.
  by apply list_elem_of_omap in H.
Qed.

Lemma resolve_only (idx : gmap string string) (numbers : list string) (c i : string) :
  c ∈ numbers -> lookupId idx c = Some i ->
  (forall m j, m ∈ numbers -> lookupId idx m = Some j -> j = i) ->
  resolve idx numbers = Some i.
Proof.
  intros Hc Hlook Honly. rewrite resolve_last.
  destruct (last (omap (lookupId idx) numbers)) as [j|] eqn:E.
  - apply last_Some_elem_of, list_elem_of_omap in E as (m & Hin & Hm).
    by rewrite (Honly m j Hin Hm).
  - apply last_None in E.
    assert (Hi : i ∈ omap (lookupId idx) numbers)
      by (apply list_elem_of_omap; by exists c).
    rewrite E in Hi. by apply elem_of_nil in Hi.
Qed.

Lemma indexOf_truthy (papers : gmap string newspaper) (idx : gmap string string) :
  truthyKeys papers -> indexOf papers idx -> truthyValues idx.
Proof.
  intros Hkeys Hidx m i H. apply Hidx in H as (paper & H & _).
  by apply (Hkeys i paper).
Qed.

Section Runs.

Variable titleCleanup : option string -> option string.
Variable getNextNewspaperId : gmap string newspaper -> string.

Abbreviation run := (onData titleCleanup getNextNewspaperId).

Lemma processed_Some (idx : gmap string string) (r : Marc.record) (p : Bib.parsed) :
  processed titleCleanup r = Some p ->
  exists info,
    newspaperInfo r = Some info /\ p = parse titleCleanup ∅ r info /\
    firstSkip (skipRules (parse titleCleanup idx r info)) = None.
Proof.
  unfold processed. destruct (newspaperInfo r) as [info|]; [|discriminate].
  cbv zeta. destruct (firstSkip _) eqn:E; [discriminate|].
  intros [= <-]. exists info. split; [done|]. split; [done|].
  by rewrite (skipRules_index titleCleanup idx ∅).
Qed.

(** The control number of a processed record is the last of its list and is
    not empty; its id is resolved over that list. *)
Lemma processed_numbers (idx : gmap string string) (r : Marc.record)
    (p : Bib.parsed) (info : string) :
  newspaperInfo r = Some info -> p = parse titleCleanup ∅ r info ->
  firstSkip (skipRules (parse titleCleanup idx r info)) = None ->
  exists c,
    Bib.marcControlNumber (parse titleCleanup idx r info) = Some c /\
    Js.truthy c = true /\ c ∈ Bib.marcControlNumberList p /\
    Bib.newspaperId (parse titleCleanup idx r info)
    = resolve idx (Bib.marcControlNumberList p).
Proof.
  intros Hinfo -> Hpass.
  destruct (classify_pass titleCleanup getNextNewspaperId ∅ _ (initialState ∅) Hpass)
    as (c & _ & Hnum & Htruthy & _).
  destruct (parse_numbers titleCleanup ∅ r info) as (H1 & _ & _).
  destruct (parse_numbers titleCleanup idx r info) as (_ & H3 & H4).
  exists c. rewrite H1, H4. split; [done|]. split; [done|]. split; [|done].
  rewrite H3 in Hnum. by apply last_Some_elem_of.
Qed.

Lemma skip_counter (p : Bib.parsed) (counter : string) :
  firstSkip (skipRules p) = Some counter ->
  counter <> "count-existing-record-updated" /\ counter <> "count-new-record".
Proof.
  unfold skipRules. cbn [firstSkip].
  repeat match goal with
  | |- context [if ?b then _ else _] => destruct b; [by intros [= <-]|]
  end. discriminate.
Qed.

(** A record that is not processed leaves the store, the writes and the two
    counters of the update and create branches alone. *)
Lemma run_unprocessed (idx : gmap string string) (pd : gmap string place)
    (st : state) (r : Marc.record) :
  processed titleCleanup r = None ->
  exists st', run idx pd st r = Returned st' /\
    store st' = store st /\ newspaperWrites st' = newspaperWrites st /\
    stats st' !! "count-existing-record-updated"
    = stats st !! "count-existing-record-updated" /\
    stats st' !! "count-new-record" = stats st !! "count-new-record".
Proof.
  unfold processed. destruct (newspaperInfo r) as [info|] eqn:Hinfo.
  - cbv zeta. rewrite (skipRules_index titleCleanup ∅ idx).
    destruct (firstSkip _) as [counter|] eqn:Hskip; [|discriminate]. intros _.
    destruct (onData_skipped titleCleanup getNextNewspaperId idx pd st r info counter
                Hinfo Hskip) as (st' & Hrun & Hstore & Hwrites & Hstats).
    exists st'. rewrite Hstats. destruct (skip_counter _ _ Hskip) as [H1 H2].
    repeat split; try done; by apply addStats_lookup_ne.
  - intros _.
    destruct (onData_other titleCleanup getNextNewspaperId idx pd st r Hinfo)
      as (st' & Hrun & Hstore & Hstats & Hevents).
    exists st'. unfold newspaperWrites. by rewrite Hstore, Hstats, Hevents.
Qed.

Hypothesis fresh :
  forall papers, papers !! getNextNewspaperId papers = None /\
                 Js.truthy (getNextNewspaperId papers) = true.

Lemma Claims_update (papers : gmap string newspaper) (i : string)
    (paper paper' : newspaper) (m j : string) :
  papers !! i = Some paper ->
  idMarcControlNumber paper' = idMarcControlNumber paper ->
  Claims (<[i := paper']> papers) m j <-> Claims papers m j.
Proof.
  intros Hi Hsame. unfold Claims. destruct (decide (i = j)) as [<-|Hne].
  - rewrite lookup_insert_eq. split.
    + intros (q & [= <-] & H1 & H2). exists paper. by rewrite <- Hsame.
    + intros (q & Hq & H1 & H2). exists paper'. rewrite Hsame.
      rewrite Hi in Hq. by injection Hq as ->.
  - by rewrite lookup_insert_ne.
Qed.

Lemma Claims_insert (papers : gmap string newspaper) (i : string)
    (paper : newspaper) (c m j : string) :
  papers !! i = None ->
  idMarcControlNumber paper = Some c -> Js.truthy c = true ->
  Claims (<[i := paper]> papers) m j <-> (j = i /\ m = c) \/ Claims papers m j.
Proof.
  intros Hi Hc Ht. unfold Claims. destruct (decide (i = j)) as [<-|Hne].
  - rewrite lookup_insert_eq. split.
    + intros (q & [= <-] & H1 & H2). left. split; [done|]. congruence.
    + intros [[_ ->]|(q & Hq & _)]; [by exists paper|congruence].
  - rewrite lookup_insert_ne by done. split; [by right|].
    intros [[-> _]|H]; [done|exact H].
Qed.

Lemma newRecord_settled (pd : gmap string place) (i c cleaned : string)
    (p : Bib.parsed) :
  Js.eqs (Bib.typeOfDate p) "c" = Js.eqs (Bib.date2 p) "9999" ->
  settled p (newRecord titleCleanup pd i c cleaned p).
Proof.
  intros H. unfold settled, updateFields. cbn.
  assert (Hrefl : forall d, Js.eqs d d = true) by (intros d; apply String.eqb_refl).
  repeat (rewrite ?Hrefl, ?H, ?Bool.eqb_reflx; cbn). reflexivity.
Qed.

Lemma processedNumbers_snoc (done : list Marc.record) (r : Marc.record) :
  processedNumbers titleCleanup (done ++ [r])
  = processedNumbers titleCleanup done ++
    from_option Bib.marcControlNumberList [] (processed titleCleanup r).
Proof.
  unfold processedNumbers. by rewrite bind_app, bind_singleton.
Qed.

Lemma processedNumbers_elem (done : list Marc.record) (r : Marc.record)
    (p : Bib.parsed) (c : string) :
  r ∈ done -> processed titleCleanup r = Some p ->
  c ∈ Bib.marcControlNumberList p ->
  c ∈ processedNumbers titleCleanup done.
Proof.
  intros Hin Hp Hc. apply list_elem_of_bind. exists r. split; [|done].
  by rewrite Hp.
Qed.

Section FirstRun.

Variable idx0 : gmap string string.
Variable pd0 : gmap string place.
Hypothesis idx0_truthy : truthyValues idx0.

Lemma invariant_step (done : list Marc.record) (st st' : state) (r : Marc.record) :
  invariant titleCleanup idx0 done (store st) ->
  run idx0 pd0 st r = Returned st' ->
  (forall p, processed titleCleanup r = Some p ->
     (forall c, c ∈ Bib.marcControlNumberList p ->
                c ∉ processedNumbers titleCleanup done) /\
     (resolve idx0 (Bib.marcControlNumberList p) = None ->
      Js.eqs (Bib.typeOfDate p) "c" = Js.eqs (Bib.date2 p) "9999")) ->
  invariant titleCleanup idx0 (done ++ [r]) (store st').
Proof.
  intros [Hkeys Huniq Hindex Hclaims Hsettled] Hrun Hr.
  destruct (processed titleCleanup r) as [p|] eqn:Hp.
  - destruct (Hr p eq_refl) as (Hnew & Hcur).
    destruct (processed_Some idx0 r p Hp) as (info & Hinfo & Hparse & Hpass).
    destruct (processed_numbers idx0 r p info Hinfo Hparse Hpass)
      as (c & Hnum & Htruthy & Hc & Hid).
    set (numbers := Bib.marcControlNumberList p) in *.
    assert (Hnums : processedNumbers titleCleanup (done ++ [r])
                    = processedNumbers titleCleanup done ++ numbers).
    { by rewrite processedNumbers_snoc, Hp. }
    (* A number of this record is claimed in the store only as the index
       says. *)
    assert (Hmine : forall m j, m ∈ numbers -> Claims (store st) m j ->
                                idx0 !! m = Some j).
    { intros m j Hm H. destruct (Hclaims m j H) as [H'|[_ H']]; [done|].
      by destruct (Hnew m Hm). }
    (* The documents of the earlier records are not the one of this record. *)
    assert (Hold : forall r' p' m',
               r' ∈ done -> processed titleCleanup r' = Some p' ->
               m' ∈ Bib.marcControlNumberList p' -> m' ∉ numbers).
    { intros r' p' m' Hin Hp' Hm' Hm. apply (Hnew m' Hm).
      by apply (processedNumbers_elem done r' p'). }
    destruct (resolve idx0 numbers) as [i|] eqn:Hres.
    + destruct (resolve_Some idx0 numbers i Hres) as (a & Ha & Hlook).
      rewrite (lookupId_truthy idx0 a idx0_truthy) in Hlook.
      destruct (Hindex a i Hlook) as (paper & Hpaper & Hclaim & Hat).
      destruct (onData_existing titleCleanup getNextNewspaperId idx0 pd0 st r info i
                  paper Hinfo Hpass Hid Hpaper)
        as (st'' & number & _ & Hrun' & Hstore & _).
      rewrite Hrun in Hrun'. injection Hrun' as <-. cbv zeta in Hstore.
      set (d1 := Bib.date1 (parse titleCleanup idx0 r info)) in *.
      set (d2 := Bib.date2 (parse titleCleanup idx0 r info)) in *.
      set (paper' := (updateFields paper d1 d2).1) in *.
      assert (Hs' : store st' = <[i := paper']> (store st)).
      { rewrite Hstore. subst paper'.
        destruct (updateFields paper d1 d2) as [q u] eqn:E. cbn.
        destruct u; [done|]. apply updateFields_unchanged in E as ->.
        by rewrite insert_id. }
      assert (Hsame : idMarcControlNumber paper' = idMarcControlNumber paper)
        by apply updateFields_number.
      rewrite Hs'. split.
      * intros j q Hj. apply lookup_insert_Some in Hj as [[<- _]|[_ Hj]];
          [by apply (Hkeys i paper)|by apply (Hkeys j q)].
      * intros m i1 i2 H1 H2.
        apply (Claims_update _ _ _ _ _ _ Hpaper Hsame) in H1, H2.
        by apply (Huniq m).
      * intros m j H. apply (Claims_update _ _ _ _ _ _ Hpaper Hsame). by apply Hindex.
      * intros m j H. apply (Claims_update _ _ _ _ _ _ Hpaper Hsame) in H.
        destruct (Hclaims m j H) as [H'|[H1 H2]]; [by left|right].
        split; [done|]. rewrite Hnums. apply elem_of_app. by left.
      * intros r' p' Hin Hp'. apply elem_of_app in Hin as [Hin|Hin].
        -- destruct (Hsettled r' p' Hin Hp')
             as (i' & q & m' & Hq & Hs & Hm' & Hqm & Hres').
           exists i', q, m'. split.
           { rewrite lookup_insert_ne; [done|]. intros <-.
             rewrite Hpaper in Hq. injection Hq as <-.
             apply (Hold r' p' m' Hin Hp' Hm').
             assert (m' = a) as -> by congruence. exact Ha. }
           split; [done|]. split; [done|]. split; [done|].
           intros idx Hidx. apply Hres'. intros m j. rewrite (Hidx m j).
           apply (Claims_update _ _ _ _ _ _ Hpaper Hsame).
        -- apply list_elem_of_singleton in Hin as ->.
           rewrite Hp in Hp'. injection Hp' as <-.
           exists i, paper', a. split; [apply lookup_insert_eq|].
           split; [subst p; apply updateFields_settled|].
           split; [done|]. split; [congruence|].
           intros idx Hidx. fold numbers. rewrite <- Hres.
           assert (Hidx' : indexOf (store st) idx).
           { intros m j. rewrite (Hidx m j).
             apply (Claims_update _ _ _ _ _ _ Hpaper Hsame). }
           pose proof (indexOf_truthy _ _ Hkeys Hidx') as Htr.
           apply resolve_ext. intros m Hm.
           rewrite (lookupId_truthy idx m Htr), (lookupId_truthy idx0 m idx0_truthy).
           destruct (idx !! m) as [j|] eqn:Ej.
           ++ symmetry. apply (Hmine m j Hm). by apply Hidx'.
           ++ destruct (idx0 !! m) as [j|] eqn:Ej0; [|done].
              apply Hindex, Hidx' in Ej0. congruence.
    + assert (Hnone : forall m, m ∈ numbers -> idx0 !! m = None).
      { intros m Hm. rewrite <- (lookupId_truthy idx0 m idx0_truthy).
        by apply (resolve_None idx0 numbers). }
      assert (Hfree : forall m j, m ∈ numbers -> ~ Claims (store st) m j).
      { intros m j Hm H. apply (Hmine m j Hm) in H. rewrite (Hnone m Hm) in H.
        discriminate. }
      destruct (onData_new titleCleanup getNextNewspaperId idx0 pd0 st r info
                  Hinfo Hpass Hid)
        as (st'' & number & cleaned & Hnum' & _ & _ & Hrun' & Hstore & _).
      rewrite Hrun in Hrun'. injection Hrun' as <-. cbv zeta in Hstore.
      rewrite Hnum in Hnum'. injection Hnum' as <-.
      destruct (fresh (store st)) as [Hfresh Hft].
      set (newId := getNextNewspaperId (store st)) in *.
      set (created := newRecord titleCleanup pd0 newId c cleaned
                        (parse titleCleanup idx0 r info)) in *.
      assert (Hcreated : idMarcControlNumber created = Some c) by reflexivity.
      rewrite Hstore. split.
      * intros j q Hj. apply lookup_insert_Some in Hj as [[<- _]|[_ Hj]];
          [done|by apply (Hkeys j q)].
      * intros m i1 i2 H1 H2.
        apply (Claims_insert _ _ _ _ _ _ Hfresh Hcreated Htruthy) in H1, H2.
        destruct H1 as [[-> ->]|H1], H2 as [[-> Hm]|H2]; try done.
        -- by destruct (Hfree c i2 Hc).
        -- subst m. by destruct (Hfree c i1 Hc).
        -- by apply (Huniq m).
      * intros m j H. apply (Claims_insert _ _ _ _ _ _ Hfresh Hcreated Htruthy).
        right. by apply Hindex.
      * intros m j H.
        apply (Claims_insert _ _ _ _ _ _ Hfresh Hcreated Htruthy) in H as [[-> ->]|H].
        -- right. split; [by apply Hnone|]. rewrite Hnums. apply elem_of_app. by right.
        -- destruct (Hclaims m j H) as [H'|[H1 H2]]; [by left|right].
           split; [done|]. rewrite Hnums. apply elem_of_app. by left.
      * intros r' p' Hin Hp'. apply elem_of_app in Hin as [Hin|Hin].
        -- destruct (Hsettled r' p' Hin Hp')
             as (i' & q & m' & Hq & Hs & Hm' & Hqm & Hres').
           exists i', q, m'. split.
           { rewrite lookup_insert_ne; [done|]. intros <-. congruence. }
           split; [done|]. split; [done|]. split; [done|].
           intros idx Hidx.
           assert (Hc' : c ∉ Bib.marcControlNumberList p').
           { intros Hin'. apply (Hnew c Hc).
             by apply (processedNumbers_elem done r' p'). }
           rewrite <- (Hres' (delete c idx)).
           ++ apply resolve_ext. intros m Hm. unfold lookupId.
              rewrite lookup_delete_ne; [done|]. by intros <-.
           ++ intros m j. destruct (decide (c = m)) as [<-|Hne].
              ** rewrite lookup_delete_eq. split; [done|].
                 intros H. by destruct (Hfree c j Hc).
              ** rewrite lookup_delete_ne by done. rewrite (Hidx m j).
                 rewrite (Claims_insert _ _ _ _ _ _ Hfresh Hcreated Htruthy).
                 split; [|by right]. intros [[_ ->]|H]; [done|exact H].
        -- apply list_elem_of_singleton in Hin as ->.
           rewrite Hp in Hp'. injection Hp' as <-.
           exists newId, created, c. split; [apply lookup_insert_eq|].
           split.
           { subst p. change (settled (parse titleCleanup idx0 r info) created).
             apply newRecord_settled. exact (Hcur eq_refl). }
           split; [done|]. split; [done|].
           intros idx Hidx. fold numbers.
           assert (Hknown : forall m j, m ∈ numbers -> idx !! m = Some j ->
                                        m = c /\ j = newId).
           { intros m j Hm H. apply Hidx in H.
             apply (Claims_insert _ _ _ _ _ _ Hfresh Hcreated Htruthy) in H
               as [[-> ->]|H]; [done|by destruct (Hfree m j Hm)]. }
           assert (Hcn : idx !! c = Some newId).
           { apply Hidx, (Claims_insert _ _ _ _ _ _ Hfresh Hcreated Htruthy).
             by left. }
           apply (resolve_only idx numbers c newId Hc).
           ++ unfold lookupId. by rewrite Hcn, Hft.
           ++ intros m j Hm Hl. unfold lookupId in Hl.
              destruct (idx !! m) as [k|] eqn:Ek; [|discriminate].
              destruct (Hknown m k Hm Ek) as [_ ->].
              rewrite Hft in Hl. by injection Hl.
  - destruct (run_unprocessed idx0 pd0 st r Hp) as (st'' & Hrun' & Hstore & _).
    rewrite Hrun in Hrun'. injection Hrun' as <-. rewrite Hstore.
    split; try done.
    + intros m i H. destruct (Hclaims m i H) as [H'|[H1 H2]]; [by left|right].
      split; [done|]. rewrite processedNumbers_snoc. apply elem_of_app. by left.
    + intros r' p' Hin Hp'. apply elem_of_app in Hin as [Hin|Hin]; [by eapply Hsettled|].
      apply list_elem_of_singleton in Hin as ->. congruence.
Qed.

Lemma invariant_stream (rest done : list Marc.record) (st st1 : state) :
  invariant titleCleanup idx0 done (store st) ->
  readMarcFile titleCleanup getNextNewspaperId idx0 pd0 rest st = Returned st1 ->
  (forall before r after p c,
     done ++ rest = before ++ r :: after ->
     processed titleCleanup r = Some p -> c ∈ Bib.marcControlNumberList p ->
     c ∉ processedNumbers titleCleanup before) ->
  (forall r p, r ∈ rest -> processed titleCleanup r = Some p ->
     resolve idx0 (Bib.marcControlNumberList p) = None ->
     Js.eqs (Bib.typeOfDate p) "c" = Js.eqs (Bib.date2 p) "9999") ->
  invariant titleCleanup idx0 (done ++ rest) (store st1).
Proof.
  revert done st. induction rest as [|r rest IH]; intros done st Hinv Hrun Hapart Hrest.
  - cbn in Hrun. injection Hrun as <-. by rewrite app_nil_r.
  - cbn [readMarcFile] in Hrun.
    destruct (run idx0 pd0 st r) as [st'|msg] eqn:Hstep; [|discriminate].
    assert (Hsplit : done ++ r :: rest = (done ++ [r]) ++ rest)
      by (by rewrite <- app_assoc).
    rewrite Hsplit.
    apply (IH (done ++ [r]) st'); [|done| |].
    + apply (invariant_step done st st' r Hinv Hstep).
      intros p Hp. split.
      * intros c Hc. by apply (Hapart done r rest p c).
      * apply (Hrest r p); [left|done].
    + intros before r' after p c Heq. apply (Hapart before r' after).
      by rewrite Hsplit.
    + intros r' p' Hin. apply Hrest. by right.
Qed.

End FirstRun.

Section SecondRun.

Variable papers1 : gmap string newspaper.
Variable idx1 : gmap string string.
Variable pd1 : gmap string place.
Hypothesis idx1_claims : indexOf papers1 idx1.
Hypothesis papers1_keys : truthyKeys papers1.

(** Over a store in which every processed record resolves to a document
    that is settled for it, the stream writes nothing. *)
Lemma settled_stream (rest : list Marc.record) (st : state) :
  store st = papers1 ->
  (forall r p, r ∈ rest -> processed titleCleanup r = Some p ->
     exists i paper,
       papers1 !! i = Some paper /\ settled p paper /\
       resolve idx1 (Bib.marcControlNumberList p) = Some i) ->
  exists st2,
    readMarcFile titleCleanup getNextNewspaperId idx1 pd1 rest st = Returned st2 /\
    store st2 = papers1 /\
    newspaperWrites st2 = newspaperWrites st /\
    stats st2 !! "count-existing-record-updated"
    = stats st !! "count-existing-record-updated" /\
    stats st2 !! "count-new-record" = stats st !! "count-new-record".
Proof.
  revert st. induction rest as [|r rest IH]; intros st Hstore Hrest.
  - by exists st.
  - cbn [readMarcFile].
    assert (Hstep : exists st',
               run idx1 pd1 st r = Returned st' /\
               store st' = papers1 /\
               newspaperWrites st' = newspaperWrites st /\
               stats st' !! "count-existing-record-updated"
               = stats st !! "count-existing-record-updated" /\
               stats st' !! "count-new-record" = stats st !! "count-new-record").
    { destruct (processed titleCleanup r) as [p|] eqn:Hp.
      - destruct (Hrest r p (list_elem_of_here _ _) Hp)
          as (i & paper & Hpaper & Hsettled & Hres).
        destruct (processed_Some idx1 r p Hp) as (info & Hinfo & Hparse & Hpass).
        destruct (processed_numbers idx1 r p info Hinfo Hparse Hpass)
          as (c & _ & _ & _ & Hid).
        rewrite Hres in Hid. rewrite <- Hstore in Hpaper.
        destruct (onData_existing titleCleanup getNextNewspaperId idx1 pd1 st r info i
                    paper Hinfo Hpass Hid Hpaper)
          as (st' & number & _ & Hrun & Hst & Hwrites & Hstats).
        cbv zeta in Hst, Hwrites, Hstats. subst p. unfold settled in Hsettled.
        change (Bib.date1 (parse titleCleanup idx1 r info))
          with (Bib.date1 (parse titleCleanup ∅ r info)) in Hst, Hwrites, Hstats.
        change (Bib.date2 (parse titleCleanup idx1 r info))
          with (Bib.date2 (parse titleCleanup ∅ r info)) in Hst, Hwrites, Hstats.
        rewrite Hsettled in Hst, Hwrites, Hstats. cbn [fst snd] in Hst, Hwrites, Hstats.
        exists st'. rewrite Hst, Hwrites, Hstats, app_nil_r.
        repeat split; try done; by apply addStats_lookup_ne.
      - destruct (run_unprocessed idx1 pd1 st r Hp)
          as (st' & Hrun & Hst & Hwrites & Hs1 & Hs2).
        exists st'. by rewrite Hst. }
    destruct Hstep as (st' & -> & Hst & Hwrites & Hs1 & Hs2).
    destruct (IH st' Hst) as (st2 & Hrun & Hst2 & Hw2 & Hs21 & Hs22).
    { intros r' p' Hin. apply Hrest. by right. }
    exists st2. rewrite Hrun, Hst2, Hw2, Hs21, Hs22. done.
Qed.

End SecondRun.

End Runs.

(** C6 (amended): let no control number of a record that passes the skip
    checks occur in an earlier such record of the input, let every such
    record none of whose numbers is claimed by a stored record have type of
    date "c" exactly when its [date2] is "9999", let the ids of the store be
    non-empty and the next id always be unused and non-empty.  Then a second
    run over the store left by a first run that came to its end also comes
    to its end, calls [writeNewspaper] not once and leaves the store as it
    is: no record is updated and none is created. *)
Theorem C6_second_run_writes_nothing
    (titleCleanup : option string -> option string)
    (getNextNewspaperId : gmap string newspaper -> string)
    (papers : gmap string newspaper) (records : list Marc.record) (st1 : state) :
  (forall store, store !! getNextNewspaperId store = None /\
                 Js.truthy (getNextNewspaperId store) = true) ->
  (forall i paper, papers !! i = Some paper -> Js.truthy i = true) ->
  (forall before r after p c,
     records = before ++ r :: after ->
     processed titleCleanup r = Some p -> c ∈ Bib.marcControlNumberList p ->
     c ∉ processedNumbers titleCleanup before) ->
  (forall r p, r ∈ records -> processed titleCleanup r = Some p ->
     (forall c i, c ∈ Bib.marcControlNumberList p -> ~ Claims papers c i) ->
     Js.eqs (Bib.typeOfDate p) "c" = Js.eqs (Bib.date2 p) "9999") ->
  runScript titleCleanup getNextNewspaperId papers records = Returned st1 ->
  exists st2,
    runScript titleCleanup getNextNewspaperId (store st1) records = Returned st2 /\
    store st2 = store st1 /\
    newspaperWrites st2 = [] /\
    stats st2 !! "count-existing-record-updated" = None /\
    stats st2 !! "count-new-record" = None.
Proof.
  intros Hfresh Hkeys Hapart Hcurrent Hrun. unfold runScript in Hrun.
  destruct (buildIndex papers) as [[idx0 pd0]|msg] eqn:Hindex; [|discriminate].
  pose proof (buildIndex_Returned papers idx0 pd0 Hkeys Hindex) as Hclaims0.
  pose proof (indexOf_truthy papers idx0 Hkeys Hclaims0) as Hidx0.
  assert (Hinv : invariant titleCleanup idx0 [] (store (initialState papers))).
  { split; cbn.
    - exact Hkeys.
    - exact (buildIndex_unique papers idx0 pd0 Hkeys Hindex).
    - intros m i. apply Hclaims0.
    - intros m i H. left. by apply Hclaims0.
    - intros r p Hin. by apply elem_of_nil in Hin. }
  pose proof (invariant_stream titleCleanup getNextNewspaperId Hfresh idx0 pd0 Hidx0
                records [] (initialState papers) st1 Hinv Hrun Hapart) as Hend.
  destruct Hend as [Hkeys1 Huniq1 _ _ Hsettled1].
  { intros r p Hin Hp Hres. apply (Hcurrent r p Hin Hp).
    intros c i Hc Hclaim. apply Hclaims0 in Hclaim.
    pose proof (resolve_None idx0 _ c Hres Hc) as Hnone.
    rewrite (lookupId_truthy idx0 c Hidx0) in Hnone. congruence. }
  destruct (buildIndex_total (store st1) Hkeys1 Huniq1) as (idx1 & pd1 & Hindex1).
  pose proof (buildIndex_Returned (store st1) idx1 pd1 Hkeys1 Hindex1) as Hclaims1.
  destruct (settled_stream titleCleanup getNextNewspaperId (store st1) idx1 pd1
              records (initialState (store st1)) eq_refl)
    as (st2 & Hrun2 & Hstore2 & Hwrites2 & Hs1 & Hs2).
  { intros r p Hin Hp.
    destruct (Hsettled1 r p Hin Hp) as (i & paper & m & H1 & H2 & _ & _ & H3).
    exists i, paper. split; [done|]. split; [done|]. by apply H3. }
  exists st2. unfold runScript. rewrite Hindex1.
  split; [exact Hrun2|]. split; [exact Hstore2|].
  split; [exact Hwrites2|]. by rewrite Hs1, Hs2.
Qed.

(** ** The example id generator *)

Lemma length_nines (n : nat) : String.length (Sample.nines n) = n.
Proof. induction n as [|n IH]; cbn; by rewrite ?IH. Qed.

Lemma longest_bound (papers : gmap string newspaper) (i : string) (paper : newspaper) :
  papers !! i = Some paper -> String.length i <= Sample.longest papers.
Proof.
  intros H. apply elem_of_map_to_list in H. unfold Sample.longest.
  induction (map_to_list papers) as [|entry entries IH]; [by apply elem_of_nil in H|].
  cbn [foldr]. apply elem_of_cons in H as [<-|H]; [cbn; lia|].
  specialize (IH H). lia.
Qed.

Lemma nextId_fresh (papers : gmap string newspaper) :
  papers !! Sample.nextId papers = None /\
  Js.truthy (Sample.nextId papers) = true.
Proof.
  split; [|reflexivity].
  destruct (papers !! Sample.nextId papers) as [paper|] eqn:E; [|reflexivity].
  apply longest_bound in E. unfold Sample.nextId in E.
  rewrite length_nines in E. lia.
Qed.

(** ** Duplicate control numbers *)

(** Two stored records with the same non-empty control number stop the scan
    of the existing records. *)
Lemma buildIndex_duplicate (papers : gmap string newspaper) (m i1 i2 : string) :
  truthyKeys papers -> Claims papers m i1 -> Claims papers m i2 -> i1 <> i2 ->
  exists message, buildIndex papers = Thrown message.
Proof.
  intros Hkeys H1 H2 Hne.
  destruct (buildIndex papers) as [[idx pd]|message] eqn:E; [|by eexists].
  by destruct (Hne (buildIndex_unique papers idx pd Hkeys E m i1 i2 H1 H2)).
Qed.

(** The message of the scan names the two records that collide: id, title
    and genre of the one at hand, id and title of the one registered. *)
Lemma scanRecords_message (papers : gmap string newspaper)
    (entries : list (string * newspaper)) (idx : gmap string string)
    (pd : gmap string place) (message : string) :
  truthyValues idx ->
  (forall e, e ∈ entries -> Js.truthy e.1 = true) ->
  scanRecords papers entries idx pd = Thrown message ->
  exists m i paper first,
    (i, paper) ∈ entries /\ idMarcControlNumber paper = Some m /\
    message = duplicateMessage m i paper first (papers !! first ≫= title) /\
    (idx !! m = Some first \/
     exists paper1, (first, paper1) ∈ entries /\ idMarcControlNumber paper1 = Some m).
Proof.
  revert idx pd.
  induction entries as [|[i paper] entries IH]; intros idx pd Hidx Hkeys;
    [discriminate|].
  cbn [scanRecords].
  set (pd' := match pd !! placename paper with Some _ => pd | None => _ end).
  assert (Hi : Js.truthy i = true) by (apply (Hkeys (i, paper)); left).
  assert (Hrest : forall idx', truthyValues idx' ->
            (forall m first, idx' !! m = Some first ->
               idx !! m = Some first \/ (first = i /\ idMarcControlNumber paper = Some m)) ->
            scanRecords papers entries idx' pd' = Thrown message ->
            exists m i0 paper0 first,
              (i0, paper0) ∈ (i, paper) :: entries /\
              idMarcControlNumber paper0 = Some m /\
              message = duplicateMessage m i0 paper0 first (papers !! first ≫= title) /\
              (idx !! m = Some first \/
               exists paper1, (first, paper1) ∈ (i, paper) :: entries /\
                              idMarcControlNumber paper1 = Some m)).
  { intros idx' Hidx' Hsub Hrun.
    destruct (IH idx' pd' Hidx') as (m & i0 & paper0 & first & Hin & Hm & Hmsg & Hfirst);
      [intros e He; apply Hkeys; by right|done|].
    exists m, i0, paper0, first. split; [by right|]. split; [done|]. split; [done|].
    destruct Hfirst as [Hfirst|(paper1 & Hin1 & Hm1)].
    - destruct (Hsub m first Hfirst) as [H|[-> H]]; [by left|].
      right. exists paper. split; [left|done].
    - right. exists paper1. split; [by right|done]. }
  destruct (idMarcControlNumber paper) as [m|] eqn:Em; [|by apply Hrest; auto].
  destruct (Js.truthy m) eqn:Et; cbn [negb]; [|by apply Hrest; auto].
  rewrite (lookupId_truthy idx m Hidx).
  destruct (idx !! m) as [first|] eqn:Elook.
  - intros [= <-]. exists m, i, paper, first. split; [left|]. by repeat split; auto.
  - apply Hrest.
    + intros m' i' H. apply lookup_insert_Some in H as [[_ <-]|[_ H]];
        [done|by apply (Hidx m' i')].
    + intros m' first H. apply lookup_insert_Some in H as [[<- <-]|[_ H]]; auto.
Qed.

(** The fatal message of the scan of a store names both colliding records
    with their ids and titles. *)
Lemma buildIndex_message (papers : gmap string newspaper) (message : string) :
  truthyKeys papers ->
  buildIndex papers = Thrown message ->
  exists m i paper first paper1,
    papers !! i = Some paper /\ papers !! first = Some paper1 /\
    idMarcControlNumber paper = Some m /\ idMarcControlNumber paper1 = Some m /\
    message = duplicateMessage m i paper first (title paper1).
Proof.
  intros Hkeys Hrun. unfold buildIndex, getNewspaperRecords in Hrun.
  destruct (scanRecords_message papers (map_to_list papers) ∅ ∅ message
              truthyValues_empty)
    as (m & i & paper & first & Hin & Hm & Hmsg & Hfirst); [|done|].
  { intros [k q] Hk. apply elem_of_map_to_list in Hk. by apply (Hkeys k q). }
  destruct Hfirst as [Hfirst|(paper1 & Hin1 & Hm1)];
    [by rewrite lookup_empty in Hfirst|].
  apply elem_of_map_to_list in Hin, Hin1.
  exists m, i, paper, first, paper1. rewrite Hin1 in Hmsg. done.
Qed.

(** C5: two records of one MARC file with the same control number, none of
    them known to the store: each is taken for new, so the store ends with
    two records, under the ids "9" and "99", that claim the number 8000996;
    the scan of the existing records of the next run then stops on the
    duplicate. *)
Theorem C5_two_creates_claim_one_number :
  exists st first second,
    runScript Sample.cleanup Sample.nextId ∅ [Sample.star; Sample.star]
    = Returned st /\
    store st !! "9" = Some first /\
    store st !! "99" = Some second /\
    idMarcControlNumber first = Some "8000996" /\
    idMarcControlNumber second = Some "8000996" /\
    exists message, buildIndex (store st) = Thrown message.
Proof.
  eexists _, _, _. split; [by vm_compute|]. split; [by vm_compute|].
  split; [by vm_compute|]. split; [by vm_compute|]. split; [by vm_compute|].
  eexists. by vm_compute.
Qed.

(** C6, as stated, fails: a record of type of date "c" with final year 1999
    is created by the first run with [isCurrent] true, and the second run
    over the same file matches it and writes it again with [isCurrent]
    false. *)
Lemma C6_counterexample_second_run_updates :
  exists st1 st2 paper source,
    runScript Sample.cleanup Sample.nextId ∅ [Sample.star] = Returned st1 /\
    runScript Sample.cleanup Sample.nextId (store st1) [Sample.star]
    = Returned st2 /\
    stats st2 !! "count-existing-record-updated" = Some 1 /\
    newspaperWrites st2 = [WriteNewspaper "9" paper source] /\
    store st2 <> store st1.
Proof.
  eexists _, _, _, _. split; [by vm_compute|]. split; [by vm_compute|].
  split; [by vm_compute|]. split; [by vm_compute|].
  intros H. apply (f_equal (fun papers => isCurrent <$> papers !! "9")) in H.
  vm_compute in H. discriminate H.
Qed.

(** Why the control numbers of the processed records must differ: two
    records that match the same stored record with final years "1uuu" and
    "2uuu" overwrite each other, and the second run writes twice. *)
Example shared_number_second_run_updates :
  exists st1 st2,
    runScript Sample.cleanup Sample.nextId {[ "12" := Sample.vague ]}
      [Sample.first1uuu; Sample.then2uuu] = Returned st1 /\
    stats st1 !! "count-existing-record-updated" = Some 1 /\
    runScript Sample.cleanup Sample.nextId (store st1)
      [Sample.first1uuu; Sample.then2uuu] = Returned st2 /\
    stats st2 !! "count-existing-record-updated" = Some 2.
Proof.
  eexists _, _. split; [by vm_compute|]. split; [by vm_compute|].
  split; by vm_compute.
Qed.

Lemma C6_second_run_witness :
  exists st1 st2,
    runScript Sample.cleanup Sample.nextId {[ "12" := Sample.stored ]}
      [Sample.known; Sample.daily] = Returned st1 /\
    runScript Sample.cleanup Sample.nextId (store st1)
      [Sample.known; Sample.daily] = Returned st2 /\
    store st2 = store st1 /\
    newspaperWrites st2 = [].
Proof.
  assert (Hrun : exists st1,
             runScript Sample.cleanup Sample.nextId {[ "12" := Sample.stored ]}
               [Sample.known; Sample.daily] = Returned st1)
    by (eexists; vm_compute; reflexivity).
  destruct Hrun as [st1 Hrun].
  destruct (C6_second_run_writes_nothing Sample.cleanup Sample.nextId
              {[ "12" := Sample.stored ]} [Sample.known; Sample.daily] st1)
    as (st2 & Hrun2 & Hstore & Hwrites & _).
  - exact nextId_fresh.
  - intros i paper H. apply lookup_singleton_Some in H as [<- _]. reflexivity.
  - intros before r after p c Heq Hp Hc.
    destruct before as [|b1 [|b2 before]]; cbn in Heq.
    + intros H. by apply elem_of_nil in H.
    + injection Heq as <- <- <-. vm_compute in Hp. injection Hp as <-.
      apply list_elem_of_singleton in Hc as ->.
      assert (Hnumbers : processedNumbers Sample.cleanup [Sample.known]
                         = ["8000996"]) by (vm_compute; reflexivity).
      rewrite Hnumbers. intros H. apply list_elem_of_singleton in H. discriminate H.
    + injection Heq as _ _ Heq. by destruct before.
  - intros r p Hin Hp _.
    apply elem_of_cons in Hin as [->|Hin];
      [|apply elem_of_cons in Hin as [->|Hin]; [|by apply elem_of_nil in Hin]];
      vm_compute in Hp; injection Hp as <-; reflexivity.
  - exact Hrun.
  - exists st1, st2. by repeat split.
Defined.

(** * Further properties of the scripts *)

(** ** Partial dates *)

Lemma trailing_le (c : ascii) (s : string) : trailing c s <= String.length s.
Proof.
  induction s as [|a s IH]; cbn; [lia|].
  destruct (_ && _); lia.
Qed.

Lemma trailing_full (c : ascii) (s : string) :
  trailing c s = String.length s -> s = repeated c (String.length s).
Proof.
  induction s as [|a s IH]; cbn; [done|].
  destruct (trailing c s =? String.length s) eqn:E; cbn.
  - apply Nat.eqb_eq in E. destruct (Ascii.eqb a c) eqn:Ea.
    + apply Ascii.eqb_eq in Ea as ->. intros _. by rewrite <- IH.
    + lia.
  - apply Nat.eqb_neq in E. pose proof (trailing_le c s). lia.
Qed.

Lemma trailing_repeated (c : ascii) (k : nat) :
  trailing c (repeated c k) = k /\ String.length (repeated c k) = k.
Proof.
  induction k as [|k [IH1 IH2]]; cbn; [done|].
  rewrite IH1, IH2, Nat.eqb_refl, Ascii.eqb_refl. cbn. done.
Qed.

Lemma endsWith_trailing (c : ascii) (k : nat) (s : string) :
  Js.endsWith s (repeated c (S k)) = true <-> S k <= trailing c s.
Proof.
  induction s as [|a s IH].
  - cbn. unfold Js.eqs. cbn. split; [done|lia].
  - cbn [Js.endsWith trailing]. rewrite orb_true_iff, IH. unfold Js.eqs.
    rewrite String.eqb_eq.
    destruct (trailing_repeated c k) as [Ht Hl].
    split.
    + intros [Heq | Hle].
      * injection Heq as -> ->. rewrite Ht, Hl, Nat.eqb_refl, Ascii.eqb_refl.
        cbn. lia.
      * destruct (_ && _); lia.
    + destruct (trailing c s =? String.length s) eqn:E; cbn.
      * destruct (Ascii.eqb a c) eqn:Ea; [|auto].
        apply Nat.eqb_eq in E. apply Ascii.eqb_eq in Ea as ->.
        intros Hle. destruct (decide (S k <= trailing c s)); [auto|].
        left. assert (k = String.length s) as -> by lia.
        by rewrite <- (trailing_full c s E).
      * auto.
Qed.

(** X1: a date compared with itself counts as more specific exactly when it
    ends in "u" and is not "uuuu" (so "1uuu", "19uu" and "197u" are each more
    specific than themselves): the function is not a strict order, and it is
    the test [!=] of its caller that keeps equal dates from being written. *)
Theorem X1_same_date (d : string) :
  isNewDateMoreSpecific d d = Js.endsWith d "u" && negb (Js.eqs d "uuuu").
Proof.
  unfold isNewDateMoreSpecific.
  destruct (Js.endsWith d "u") eqn:E1; cbn; [|done].
  destruct (Js.eqs d "9999") eqn:E9.
  { apply String.eqb_eq in E9 as ->. by vm_compute in E1. }
  destruct (Js.eqs d "uuuu") eqn:E4; cbn; [done|].
  destruct (Js.endsWith d "uuu") eqn:E3; [done|].
  destruct (Js.endsWith d "uu") eqn:E2; done.
Qed.

(** X2: when a candidate of four characters is accepted as more specific,
    it does not end in more "u" than the current date; the current date ends
    in at least one "u" and the candidate in at most three. *)
Theorem X2_never_less_specific (current candidate : string) :
  String.length candidate = 4 ->
  isNewDateMoreSpecific current candidate = true ->
  trailing "u" candidate <= trailing "u" current /\
  1 <= trailing "u" current /\ trailing "u" candidate <= 3.
Proof.
  intros Hlen. unfold isNewDateMoreSpecific.
  pose proof (endsWith_trailing "u" 0 current) as H1.
  pose proof (endsWith_trailing "u" 1 current) as H2.
  pose proof (endsWith_trailing "u" 2 current) as H3.
  pose proof (endsWith_trailing "u" 1 candidate) as C2.
  pose proof (endsWith_trailing "u" 2 candidate) as C3.
  pose proof (trailing_le "u" candidate) as Hle.
  cbn [repeated] in *.
  assert (Hfour : Js.eqs candidate "uuuu" = false -> trailing "u" candidate <= 3).
  { intros Hne. destruct (decide (trailing "u" candidate = 4)) as [E|]; [|lia].
    rewrite <- Hlen in E. apply trailing_full in E. rewrite Hlen in E.
    cbn in E. subst candidate. by vm_compute in Hne. }
  destruct (Js.endsWith current "u") eqn:E1; cbn; [|done].
  destruct (Js.eqs candidate "9999"); cbn; [done|].
  destruct (Js.eqs candidate "uuuu") eqn:E4; cbn; [done|].
  specialize (Hfour eq_refl).
  assert (1 <= trailing "u" current) by by apply H1.
  destruct (Js.eqs current "9999") eqn:E9; cbn.
  { apply String.eqb_eq in E9 as ->. by vm_compute in E1. }
  destruct (Js.eqs current "uuuu") eqn:Ec4; cbn.
  { apply String.eqb_eq in Ec4 as ->. cbn. lia. }
  destruct (Js.endsWith current "uuu") eqn:E3.
  { intros _. assert (3 <= trailing "u" current) by by apply H3. lia. }
  destruct (Js.endsWith current "uu") eqn:E2.
  { assert (2 <= trailing "u" current) by by apply H2.
    destruct (Js.endsWith candidate "uuu") eqn:Ec3; cbn; [done|].
    intros _. assert (~ 3 <= trailing "u" candidate); [|lia].
    intros Hc. apply C3 in Hc. congruence. }
  destruct (Js.endsWith candidate "uu") eqn:Ec2; cbn; [done|].
  intros _. assert (~ 2 <= trailing "u" candidate); [|lia].
  intros Hc. apply C2 in Hc. congruence.
Qed.

Lemma X2_never_less_specific_witness :
  trailing "u" "197u" <= trailing "u" "19uu" /\
  1 <= trailing "u" "19uu" /\ trailing "u" "197u" <= 3.
Proof.
  apply (X2_never_less_specific "19uu" "197u"); reflexivity.
Defined.

(** ** Updates, place names, format flags, matched ids *)

(** X3: the update of a matched record leaves a first or final year that
    does not end in "u" as it is; a year that changes becomes the date of the
    MARC record, which is then neither "9999" nor "uuuu"; and [isCurrent]
    ends as the test of the final year against "9999". *)
Theorem X3_specific_years_stay (paper : newspaper) (date1 date2 : string) :
  let paper' := (updateFields paper date1 date2).1 in
  (Js.endsWith (firstYear paper) "u" = false -> firstYear paper' = firstYear paper) /\
  (Js.endsWith (finalYear paper) "u" = false -> finalYear paper' = finalYear paper) /\
  (firstYear paper' = firstYear paper \/
   firstYear paper' = date1 /\ date1 <> "9999" /\ date1 <> "uuuu") /\
  (finalYear paper' = finalYear paper \/
   finalYear paper' = date2 /\ date2 <> "9999" /\ date2 <> "uuuu") /\
  isCurrent paper' = Js.eqs (finalYear paper') "9999".
Proof.
  destruct (updateFields_spec paper date1 date2) as [-> _]. cbn.
  assert (Hrule : forall stored new,
            negb (Js.eqs stored new) && isNewDateMoreSpecific stored new = true ->
            Js.endsWith stored "u" = true /\ new <> "9999" /\ new <> "uuuu").
  { intros stored new H. apply andb_prop in H as [_ H].
    unfold isNewDateMoreSpecific in H.
    destruct (Js.endsWith stored "u"); [|discriminate]. cbn in H.
    destruct (Js.eqs new "9999") eqn:E9; [discriminate|].
    destruct (Js.eqs new "uuuu") eqn:E4; [discriminate|].
    apply String.eqb_neq in E9, E4. done. }
  pose proof (Hrule (firstYear paper) date1) as H1.
  pose proof (Hrule (finalYear paper) date2) as H2.
  destruct (negb (Js.eqs (firstYear paper) date1)
            && isNewDateMoreSpecific (firstYear paper) date1);
    destruct (negb (Js.eqs (finalYear paper) date2)
              && isNewDateMoreSpecific (finalYear paper) date2);
    repeat split; try (intros; done); try (by left);
    try (right; by destruct (H1 eq_refl)); try (right; by destruct (H2 eq_refl));
    intros Hu; try (destruct (H1 eq_refl); congruence);
    try (destruct (H2 eq_refl); congruence).
Qed.

(** X4: the update is idempotent: the dates of a MARC record applied to the
    document they have already updated change nothing and report no
    update. *)
Theorem X4_update_twice (paper : newspaper) (date1 date2 : string) :
  updateFields (updateFields paper date1 date2).1 date1 date2
  = ((updateFields paper date1 date2).1, false).
Proof. exact (updateFields_settled paper date1 date2). Qed.

Lemma substring_head (n : nat) (s : string) :
  exists rest, s = Js.substring 0 n s +:+ rest /\
               String.length (Js.substring 0 n s) = min n (String.length s).
Proof.
  unfold Js.substring. rewrite Nat.sub_0_r. revert s.
  induction n as [|n IH]; intros s.
  - exists s. by destruct s.
  - destruct s as [|a s]; [by exists ""|].
    destruct (IH s) as (rest & Hs & Hl). exists rest. cbn.
    rewrite Hl. split; [|done].
    change (String a s = String a (String.substring 0 n s +:+ rest)).
    f_equal. exact Hs.
Qed.

Lemma indexOf_lt (s : string) (c : ascii) (i : nat) :
  Js.indexOf s c = Some i -> i < String.length s.
Proof.
  revert i. induction s as [|a s IH]; intros i; cbn; [done|].
  destruct (Ascii.eqb a c); [intros [= <-]; lia|].
  destruct (Js.indexOf s c) as [j|]; cbn; [|done].
  intros [= <-]. specialize (IH j eq_refl). lia.
Qed.

Lemma searchNZ_lt (s : string) (i : nat) :
  Js.searchNZ s = Some i -> i < String.length s.
Proof.
  revert i. induction s as [|a s IH]; intros i; [done|].
  cbn [Js.searchNZ]. destruct (Js.matchNZ (String a s)); [intros [= <-]; cbn; lia|].
  destruct (Js.searchNZ s) as [j|]; cbn; [|done].
  intros [= <-]. specialize (IH j eq_refl). lia.
Qed.

Lemma str_app_nil (s : string) : s = s +:+ "".
Proof.
  induction s as [|a s IH]; [done|].
  change (String a s = String a (s +:+ "")). by f_equal.
Qed.

Lemma str_app_assoc (a b c : string) : (a +:+ b) +:+ c = a +:+ (b +:+ c).
Proof.
  induction a as [|x a IH]; [done|].
  change (String x ((a +:+ b) +:+ c) = String x (a +:+ (b +:+ c))). by f_equal.
Qed.

Lemma cut_head (name : string) (i : option nat) :
  (forall n, i = Some n -> n < String.length name) ->
  let name' := if Js.gt1 i then Js.substring 0 (default 0 i) name else name in
  exists rest, name = name' +:+ rest /\
    (2 <= String.length name -> 2 <= String.length name') /\
    String.length name' <= String.length name.
Proof.
  intros Hi. destruct i as [n|]; cbv zeta; unfold Js.gt1; cbn [from_option].
  - destruct (1 <? n) eqn:E.
    + apply Nat.ltb_lt in E. specialize (Hi n eq_refl).
      destruct (substring_head n name) as (rest & Hs & Hl).
      exists rest. split; [exact Hs|]. unfold Datatypes.id. lia.
    + exists "". split; [|lia]. apply str_app_nil.
  - exists "". split; [|lia]. apply str_app_nil.
Qed.

(** X5: the truncations of [placeCleanUp] only cut a tail off the name left
    by the bracket test: the result is a head of that name; a name of two
    characters or more keeps at least two, since no cut is made at positions
    0 and 1; and without a match of "N.Z" nothing is cut. *)
Theorem X5_placeTruncate_head (rawName : string) :
  exists rest, unbracketed rawName = placeTruncate rawName +:+ rest /\
    (2 <= String.length (unbracketed rawName) ->
     2 <= String.length (placeTruncate rawName)) /\
    (Js.searchNZ (unbracketed rawName) = None -> rest = "").
Proof.
  unfold placeTruncate. fold (unbracketed rawName).
  set (name := unbracketed rawName).
  destruct (Js.searchNZ name) as [k|] eqn:Enz.
  - cbv zeta.
    destruct (cut_head name (Js.indexOf name ","%char)) as (r1 & H1 & L1 & _).
    { intros n. apply indexOf_lt. }
    set (name1 := if Js.gt1 (Js.indexOf name ","%char)
                  then Js.substring 0 (default 0 (Js.indexOf name ","%char)) name
                  else name) in *.
    destruct (cut_head name1 (Js.searchNZ name1)) as (r2 & H2 & L2 & _).
    { intros n. apply searchNZ_lt. }
    set (name2 := if Js.gt1 (Js.searchNZ name1)
                  then Js.substring 0 (default 0 (Js.searchNZ name1)) name1
                  else name1) in *.
    destruct (cut_head name2 (Js.indexOf name2 "["%char)) as (r3 & H3 & L3 & _).
    { intros n. apply indexOf_lt. }
    exists (r3 +:+ (r2 +:+ r1)). split; [|split; [auto|done]].
    rewrite <- !str_app_assoc. by rewrite <- H3, <- H2.
  - exists "". split; [|done]. apply str_app_nil.
Qed.

Lemma startsWith_both (v : string) :
  Js.startsWith v "[electronic resource]" = true ->
  Js.startsWith v "[microform]" = false.
Proof.
  unfold Js.startsWith. destruct v as [|a [|b v]]; cbn [String.prefix]; try done.
  - destruct (ascii_dec "[" a); done.
  - destruct (ascii_dec "[" a); [|done].
    destruct (ascii_dec "e" b) as [<-|]; [|done]. intros _.
    by destruct (ascii_dec "m" "e").
Qed.

Lemma titleStep_flags (pairs : list (string * string))
    (acc : option string * option string * bool * bool) :
  (fold_left titleStep pairs acc).1.2
  = acc.1.2 || existsb mediumElectronic pairs /\
  (fold_left titleStep pairs acc).2
  = acc.2 || existsb mediumMicroform pairs.
Proof.
  revert acc. induction pairs as [|pair pairs IH]; intros acc.
  - cbn. by rewrite !orb_false_r.
  - cbn [fold_left existsb]. destruct (IH (titleStep acc pair)) as [-> ->].
    destruct acc as [[[t m] e] mi]. unfold titleStep, mediumElectronic, mediumMicroform.
    cbn [fst snd].
    destruct (Js.eqs pair.1 "a") eqn:Ea.
    { apply String.eqb_eq in Ea. rewrite Ea. cbn. done. }
    destruct (Js.eqs pair.1 "h"); cbn; [|done].
    destruct (Js.startsWith pair.2 "[electronic resource]") eqn:Ee; cbn.
    { rewrite (startsWith_both _ Ee). cbn. by rewrite orb_true_r. }
    destruct (Js.startsWith pair.2 "[microform]"); cbn; [|done].
    by rewrite orb_true_r.
Qed.

Lemma extentStep_flags (pairs : list (string * string))
    (acc : option string * bool * bool) :
  (fold_left extentStep pairs acc).1.2
  = acc.1.2 || existsb extentElectronic pairs /\
  (fold_left extentStep pairs acc).2
  = acc.2 || existsb extentMicroform pairs.
Proof.
  revert acc. induction pairs as [|pair pairs IH]; intros acc.
  - cbn. by rewrite !orb_false_r.
  - cbn [fold_left existsb]. destruct (IH (extentStep acc pair)) as [-> ->].
    destruct acc as [[x e] mi]. unfold extentStep, extentElectronic, extentMicroform.
    cbn [fst snd].
    destruct (Js.eqs pair.1 "a"); cbn; [|done].
    destruct (Js.includes pair.2 "microf"); cbn; [by rewrite orb_true_r|].
    destruct (Js.includes pair.2 "online resource"); cbn; [by rewrite orb_true_r|].
    destruct (Js.includes pair.2 "electronic documents"); cbn; [by rewrite orb_true_r|].
    done.
Qed.

Section FieldFacts.
Variable titleCleanup : option string -> option string.

(** X6: the two format flags are only ever raised, by the 245 and the 300
    fields alike.  A record is microform when some 245 subfield "h" starts
    with "[microform]" or some 300 subfield "a" includes "microf"; it is
    electronic when some 245 subfield "h" starts with "[electronic resource]"
    or some 300 subfield "a" without "microf" includes "online resource" or
    "electronic documents". *)
Theorem X6_format_flags (idx : gmap string string) (r : Marc.record) (info : string) :
  Bib.isMicroformResource (parse titleCleanup idx r info)
  = existsb mediumMicroform (Marc.subfields "245" r)
    || existsb extentMicroform (Marc.subfields "300" r) /\
  Bib.isElectronicResource (parse titleCleanup idx r info)
  = existsb mediumElectronic (Marc.subfields "245" r)
    || existsb extentElectronic (Marc.subfields "300" r).
Proof.
  cbn.
  destruct (extentStep_flags (Marc.subfields "300" r)
              (None, (fold_left titleStep (Marc.subfields "245" r)
                        (None, None, false, false)).1.2,
               (fold_left titleStep (Marc.subfields "245" r)
                  (None, None, false, false)).2)) as [-> ->].
  destruct (titleStep_flags (Marc.subfields "245" r) (None, None, false, false))
    as [-> ->].
  done.
Qed.

(** X7: the newspaper id of a record is the id of the last of its "(Nz)"
    numbers the index knows with a non-empty id: it is non-empty and the
    index holds it under one of the numbers; there is none only when the
    index knows none of the numbers; and when the index knows the control
    number kept for the record (the last one), the id is that number's. *)
Theorem X7_matched_id (idx : gmap string string) (r : Marc.record) (info : string) :
  let p := parse titleCleanup idx r info in
  Bib.newspaperId p = last (omap (lookupId idx) (nzNumbers r)) /\
  (forall i, Bib.newspaperId p = Some i ->
     Js.truthy i = true /\ exists m, m ∈ nzNumbers r /\ idx !! m = Some i) /\
  (Bib.newspaperId p = None <->
     forall m, m ∈ nzNumbers r -> lookupId idx m = None) /\
  (forall m i, Bib.marcControlNumber p = Some m -> lookupId idx m = Some i ->
     Bib.newspaperId p = Some i).
Proof.
  intros p. destruct (parse_numbers titleCleanup idx r info) as (_ & Hm & Hid).
  fold p in Hm, Hid. rewrite Hid, Hm. rewrite resolve_last.
  split; [done|]. split; [|split].
  - intros i Hl. apply last_Some_elem_of in Hl.
    apply list_elem_of_omap in Hl as (m & Hin & Hl). split.
    + unfold lookupId in Hl. destruct (idx !! m) as [j|]; [|done].
      destruct (Js.truthy j) eqn:Ej; [|done]. by injection Hl as <-.
    + exists m. split; [done|]. unfold lookupId in Hl.
      destruct (idx !! m) as [j|]; [|done]. destruct (Js.truthy j); [|done].
      by injection Hl as ->.
  - rewrite last_None. clear Hm Hid. split.
    + intros Hnil m Hin. destruct (lookupId idx m) as [i|] eqn:E; [|done].
      assert (i ∈ omap (lookupId idx) (nzNumbers r)).
      { apply list_elem_of_omap. by exists m. }
      rewrite Hnil in H. by apply elem_of_nil in H.
    + generalize (nzNumbers r). intros l Hall.
      induction l as [|m l IH]; [done|].
      cbn. rewrite (Hall m) by apply list_elem_of_here.
      apply IH. intros m' Hin. apply Hall. by apply list_elem_of_further.
  - intros m i Hl Hi. apply last_Some in Hl as [l' ->].
    rewrite omap_app. cbn. rewrite Hi. cbn. by rewrite last_snoc.
Qed.

End FieldFacts.

(** ** The scan of the existing records *)






(** The two records of the message of a failed scan are different. *)
Lemma scanRecords_collision (papers : gmap string newspaper)
    (entries : list (string * newspaper)) (idx : gmap string string)
    (pd : gmap string place) (message : string) :
  truthyValues idx ->
  (forall e, e ∈ entries -> Js.truthy e.1 = true) ->
  NoDup entries.*1 ->
  (forall m first, idx !! m = Some first -> first ∉ entries.*1) ->
  scanRecords papers entries idx pd = Thrown message ->
  exists m i paper first,
    (i, paper) ∈ entries /\ idMarcControlNumber paper = Some m /\
    Js.truthy m = true /\ first <> i /\
    message = duplicateMessage m i paper first (papers !! first ≫= title) /\
    (idx !! m = Some first \/
     exists paper1, (first, paper1) ∈ entries /\ idMarcControlNumber paper1 = Some m).
Proof.
  revert idx pd.
  induction entries as [|[i paper] entries IH]; intros idx pd Hidx Hkeys Hnd Hout;
    [discriminate|].
  cbn [scanRecords].
  set (pd' := match pd !! placename paper with Some _ => pd | None => _ end).
  assert (Hi : Js.truthy i = true) by (apply (Hkeys (i, paper)); left).
  cbn [fmap list_fmap fst] in Hnd, Hout. apply NoDup_cons in Hnd as [Hfresh Hnd].
  assert (Hrest : forall idx', truthyValues idx' ->
            (forall m first, idx' !! m = Some first ->
               idx !! m = Some first \/ (first = i /\ idMarcControlNumber paper = Some m)) ->
            scanRecords papers entries idx' pd' = Thrown message ->
            exists m i0 paper0 first,
              (i0, paper0) ∈ (i, paper) :: entries /\
              idMarcControlNumber paper0 = Some m /\
              Js.truthy m = true /\ first <> i0 /\
              message = duplicateMessage m i0 paper0 first (papers !! first ≫= title) /\
              (idx !! m = Some first \/
               exists paper1, (first, paper1) ∈ (i, paper) :: entries /\
                              idMarcControlNumber paper1 = Some m)).
  { intros idx' Hidx' Hsub Hrun.
    destruct (IH idx' pd' Hidx')
      as (m & i0 & paper0 & first & Hin & Hm & Ht & Hne & Hmsg & Hfirst);
      [intros e He; apply Hkeys; by right|done| |done|].
    { intros m first H. destruct (Hsub m first H) as [H'|[-> _]]; [|done].
      intros Hin. apply (Hout m first H'). by right. }
    exists m, i0, paper0, first. split; [by right|]. do 4 (split; [done|]).
    destruct Hfirst as [Hfirst|(paper1 & Hin1 & Hm1)].
    - destruct (Hsub m first Hfirst) as [H|[-> H]]; [by left|].
      right. exists paper. split; [left|done].
    - right. exists paper1. split; [by right|done]. }
  destruct (idMarcControlNumber paper) as [m|] eqn:Em; [|by apply Hrest; auto].
  destruct (Js.truthy m) eqn:Et; cbn [negb]; [|by apply Hrest; auto].
  rewrite (lookupId_truthy idx m Hidx).
  destruct (idx !! m) as [first|] eqn:Elook.
  - intros [= <-]. exists m, i, paper, first. split; [left|].
    do 2 (split; [done|]). split; [|by auto].
    intros ->. apply (Hout m i Elook). left.
  - apply Hrest.
    + intros m' i' H. apply lookup_insert_Some in H as [[_ <-]|[_ H]];
        [done|by apply (Hidx m' i')].
    + intros m' first H. apply lookup_insert_Some in H as [[<- <-]|[_ H]]; auto.
Qed.

(** X8: over a store whose ids are not empty, the scan of the existing
    records either returns, and then no two records claim one control number
    and the index maps a number to an id exactly when the record under that
    id claims it; or it throws, and then the message names two different
    stored records that claim one number, with the id and title of each. *)
Theorem X8_index_or_collision (papers : gmap string newspaper) :
  truthyKeys papers ->
  match buildIndex papers with
  | Returned (idx, _) =>
      uniqueClaims papers /\
      forall m i, idx !! m = Some i <-> Claims papers m i
  | Thrown message =>
      exists m i first paper paper1,
        i <> first /\ Claims papers m i /\ Claims papers m first /\
        papers !! i = Some paper /\ papers !! first = Some paper1 /\
        message = duplicateMessage m i paper first (title paper1)
  end.
Proof.
  intros Hkeys. destruct (buildIndex papers) as [[idx pd]|message] eqn:Hrun.
  - split; [by apply (buildIndex_unique papers idx pd)|].
    by apply (buildIndex_Returned papers idx pd).
  - unfold buildIndex, getNewspaperRecords in Hrun.
    destruct (scanRecords_collision papers (map_to_list papers) ∅ ∅ message
                truthyValues_empty)
      as (m & i & paper & first & Hin & Hm & Ht & Hne & Hmsg & Hfirst); [| | |done|].
    { intros [k q] Hk. apply elem_of_map_to_list in Hk. by apply (Hkeys k q). }
    { apply NoDup_fst_map_to_list. }
    { intros m first H. by rewrite lookup_empty in H. }
    destruct Hfirst as [Hfirst|(paper1 & Hin1 & Hm1)];
      [by rewrite lookup_empty in Hfirst|].
    apply elem_of_map_to_list in Hin, Hin1.
    exists m, i, first, paper, paper1. rewrite Hin1 in Hmsg.
    split; [done|]. split; [by exists paper|]. split; [by exists paper1|]. done.
Qed.

Lemma X8_index_or_collision_witness :
  match buildIndex {[ "12" := Sample.stored ]} with
  | Returned (idx, _) =>
      uniqueClaims {[ "12" := Sample.stored ]} /\
      forall m i, idx !! m = Some i <-> Claims {[ "12" := Sample.stored ]} m i
  | Thrown message =>
      exists m i first paper paper1,
        i <> first /\ Claims {[ "12" := Sample.stored ]} m i /\
        Claims {[ "12" := Sample.stored ]} m first /\
        ({[ "12" := Sample.stored ]} : gmap string newspaper) !! i = Some paper /\
        ({[ "12" := Sample.stored ]} : gmap string newspaper) !! first = Some paper1 /\
        message = duplicateMessage m i paper first (title paper1)
  end.
Proof.
  apply (X8_index_or_collision {[ "12" := Sample.stored ]}).
  intros i paper H. apply lookup_singleton_Some in H as [<- _]. reflexivity.
Defined.

Section PlaceFacts.
Variable titleCleanup : option string -> option string.


End PlaceFacts.


(** ** The handler and the run *)

Lemma writeMarcFile_fields (nid mcn : option string) (r : Marc.record) (st : state) :
  store (writeMarcFile nid mcn r st) = store st /\
  stats (writeMarcFile nid mcn r st) = stats st /\
  recordCounter (writeMarcFile nid mcn r st) = recordCounter st /\
  serialCounter (writeMarcFile nid mcn r st) = serialCounter st /\
  newspaperCounter (writeMarcFile nid mcn r st) = newspaperCounter st /\
  events (writeMarcFile nid mcn r st) = events st ++ marcFileEvents nid mcn r.
Proof.
  unfold writeMarcFile, marcFileEvents. destruct nid as [found|];
    [destruct (Js.truthy found && negb (Js.falsy mcn))|]; cbn;
    by rewrite ?app_nil_r.
Qed.

Lemma storeEvent_marcFile (nid mcn : option string) (r : Marc.record)
    (papers : gmap string newspaper) :
  fold_left storeEvent (marcFileEvents nid mcn r) papers = papers.
Proof.
  unfold marcFileEvents. destruct nid as [found|]; [|done].
  by destruct (Js.truthy found && negb (Js.falsy mcn)).
Qed.

Lemma Returned_inj {A : Type} (a b : A) : Returned a = Returned b -> a = b.
Proof. by intros [= ->]. Qed.

Section HandlerFacts.

Variable titleCleanup : option string -> option string.
Variable getNextNewspaperId : gmap string newspaper -> string.

Lemma onData_handlerCase (idx : gmap string string) (pd : gmap string place)
    (st st' : state) (r : Marc.record) :
  onData titleCleanup getNextNewspaperId idx pd st r = Returned st' ->
  exists serial paper labels news,
    handlerCase titleCleanup getNextNewspaperId idx pd st r serial paper labels news /\
    recordCounter st' = S (recordCounter st) /\
    serialCounter st' = serialCounter st + (if serial then 1 else 0) /\
    newspaperCounter st' = newspaperCounter st + (if paper then 1 else 0) /\
    stats st' = fold_left (fun s label => addStats label s) labels (stats st) /\
    events st' = events st ++ news /\
    store st' = fold_left storeEvent news (store st).
Proof.
  destruct (newspaperInfo r) as [info|] eqn:Hinfo.
  - rewrite (onData_newspaper _ _ _ _ _ _ _ Hinfo).
    set (p := parse titleCleanup idx r info).
    set (st0 := countNewspaper (countSerial (countRecord st))).
    destruct (firstSkip (skipRules p)) as [label|] eqn:Hskip.
    + rewrite (classify_skip _ _ _ _ _ _ Hskip). intros Hrun.
      apply Returned_inj in Hrun as <-.
      eexists true, true, _, _. split; [by eapply handler_skipped|].
      match goal with
      | |- context [writeMarcFile ?a ?b ?c ?d] =>
          destruct (writeMarcFile_fields a b c d) as (-> & -> & -> & -> & -> & ->)
      end.
      rewrite storeEvent_marcFile. cbn. repeat split; lia.
    + destruct (classify_pass titleCleanup getNextNewspaperId pd p st0 Hskip)
        as (number & cleaned & Hnum & Htruthy & Hplace & _ & ->).
      rewrite Hnum.
      destruct (Bib.newspaperId p) as [newspaperId|] eqn:Hid.
      * unfold updateExisting, readNewspaper. cbn [store withStats].
        destruct (store st0 !! newspaperId) as [paper|] eqn:Hpaper; [|discriminate].
        pose proof (handler_existing titleCleanup getNextNewspaperId idx pd st r
                      info newspaperId number paper Hinfo Hskip Hid Hnum Htruthy Hpaper)
          as Hcase.
        fold p in Hcase.
        destruct (updateFields paper (Bib.date1 p) (Bib.date2 p)) as [paper' updated].
        cbn [fst snd] in Hcase.
        destruct updated; intros Hrun; cbv beta iota in Hrun;
          apply Returned_inj in Hrun as <-; eexists true, true, _, _;
          (split; [exact Hcase|]);
          match goal with
          | |- context [writeMarcFile ?a ?b ?c ?d] =>
              destruct (writeMarcFile_fields a b c d) as (-> & -> & -> & -> & -> & ->)
          end;
          rewrite fold_left_app, storeEvent_marcFile; cbn;
          rewrite <- ?app_assoc; repeat split; lia.
      * intros Hrun. apply Returned_inj in Hrun as <-. eexists true, true, _, _.
        split; [by eapply (handler_new _ _ _ _ _ _ info number cleaned)|].
        match goal with
        | |- context [writeMarcFile ?a ?b ?c ?d] =>
            destruct (writeMarcFile_fields a b c d) as (-> & -> & -> & -> & -> & ->)
        end.
        fold p. unfold addNew. cbn [fst fold_left storeEvent].
        rewrite storeEvent_marcFile.
        destruct (Js.gts (Bib.dateOnFile p) "130402"); cbn;
          rewrite <- ?app_assoc; repeat split; lia.
  - unfold onData. pose proof Hinfo as Hinfo'. unfold newspaperInfo in Hinfo.
    destruct (Js.eqs (Js.charAt 6 (Marc.leader r)) "a"
              && Js.eqs (Js.charAt 7 (Marc.leader r)) "s").
    + destruct (Marc.generalInfoValue r) as [v|].
      * destruct (Js.eqs (Js.charAt 21 v) "n"); [discriminate|].
        intros [= <-]. exists true, false, [], [].
        split; [by constructor|]. cbn. rewrite app_nil_r. repeat split; lia.
      * intros [= <-]. exists true, false, [], [].
        split; [by constructor|]. cbn. rewrite app_nil_r. repeat split; lia.
    + intros [= <-]. exists false, false, [], [].
      split; [by constructor|]. cbn. rewrite app_nil_r. repeat split; lia.
Qed.

End HandlerFacts.



Lemma tally_addStats (label other : string) (stats : gmap string nat) :
  default 0 (addStats label stats !! other)
  = (if String.eqb label other then 1 else 0) + default 0 (stats !! other).
Proof.
  destruct (String.eqb_spec label other) as [<-|Hne].
  - by rewrite addStats_lookup.
  - by rewrite addStats_lookup_ne.
Qed.

Lemma firstSkip_label (p : Bib.parsed) (label : string) :
  firstSkip (skipRules p) = Some label ->
  label = "count-skipped-no-nz-control-number" \/
  label = "count-skipped-micoform" \/
  label = "count-skipped-electronic" \/
  label = "count-skipped-infrequent" \/
  label = "count-skipped-placename".
Proof.
  unfold skipRules. cbn [firstSkip].
  repeat match goal with
  | |- context [if ?b then _ else _] => destruct b; [intros [= <-]; tauto|]
  end. discriminate.
Qed.

Lemma marcFileEvents_writes (nid mcn : option string) (r : Marc.record) :
  filter (fun e => isWriteNewspaper e = true) (marcFileEvents nid mcn r) = [].
Proof.
  unfold marcFileEvents. destruct nid as [found|]; [|done].
  by destruct (Js.truthy found && negb (Js.falsy mcn)).
Qed.


Ltac eval_eqb :=
  repeat match goal with
  | |- context [String.eqb ?a ?b] =>
      let v := eval vm_compute in (String.eqb a b) in
      change (String.eqb a b) with v
  end.

Section RunFacts.

Variable titleCleanup : option string -> option string.
Variable getNextNewspaperId : gmap string newspaper -> string.

Lemma readMarcFile_invariant (P : state -> Prop) (idx : gmap string string)
    (pd : gmap string place) :
  (forall st r st', P st ->
     onData titleCleanup getNextNewspaperId idx pd st r = Returned st' -> P st') ->
  forall records st st', P st ->
    readMarcFile titleCleanup getNextNewspaperId idx pd records st = Returned st' ->
    P st'.
Proof.
  intros Hstep records. induction records as [|r records IH]; intros st st' HP.
  - by intros [= <-].
  - cbn [readMarcFile].
    destruct (onData titleCleanup getNextNewspaperId idx pd st r) as [st1|] eqn:E;
      [|discriminate].
    apply IH. by apply (Hstep st r).
Qed.





(** The counters after one record. *)
Lemma onData_consistent (idx : gmap string string) (pd : gmap string place)
    (st st' : state) (r : Marc.record) :
  consistent st ->
  onData titleCleanup getNextNewspaperId idx pd st r = Returned st' ->
  consistent st'.
Proof.
  intros (H1 & H2 & H3 & H4 & H5 & H6) Hrun.
  destruct (onData_handlerCase _ _ _ _ _ _ _ Hrun)
    as (serial & paper & labels & news & Hcase & Hrec & Hser & Hnews & Hstats
        & Hevents & _).
  unfold consistent, classified, counter, newspaperWrites in *.
  rewrite Hrec, Hser, Hnews, Hstats, Hevents, filter_app, length_app.
  clear Hrun Hrec Hser Hnews Hstats Hevents.
  destruct Hcase as [serial Hinfo|info label Hinfo Hskip
                    |info i number q Hinfo Hskip Hid Hnum Ht Hq
                    |info number cleaned Hinfo Hskip Hid Hnum Ht Hplace].
  - cbn. destruct serial; lia.
  - rewrite marcFileEvents_writes. cbn [fold_left length].
    rewrite !tally_addStats.
    destruct (firstSkip_label _ _ Hskip) as [->|[->|[->|[->| ->]]]];
      eval_eqb; cbv beta iota; lia.
  - rewrite filter_app, marcFileEvents_writes, app_nil_r.
    destruct (updateFields q _ _).2;
      rewrite ?filter_cons_True by done; rewrite ?filter_nil;
      cbn [fold_left length];
      rewrite !tally_addStats; eval_eqb; cbv beta iota; lia.
  - rewrite filter_cons_True by done. rewrite marcFileEvents_writes.
    destruct (Js.gts _ _); cbn [fold_left length];
      rewrite !tally_addStats; eval_eqb; cbv beta iota; lia.
Qed.

(** X11: the counters at the end of a run: [recordCounter] is the number of
    records read; newspapers are at most serials, serials at most records;
    every newspaper record raised exactly one of the five skip counters,
    "count-existing-record" and "count-new-record"; the updated records are
    among the existing ones and the records new since the last load among
    the new ones; and [writeNewspaper] was called once per updated and once
    per new record. *)
Theorem X11_counters_add_up (papers : gmap string newspaper)
    (records : list Marc.record) (st : state) :
  runScript titleCleanup getNextNewspaperId papers records = Returned st ->
  recordCounter st = length records /\
  newspaperCounter st <= serialCounter st <= recordCounter st /\
  classified st = newspaperCounter st /\
  counter "count-existing-record-updated" st <= counter "count-existing-record" st /\
  counter "count-new-record-since-last-load" st <= counter "count-new-record" st /\
  length (newspaperWrites st)
  = counter "count-existing-record-updated" st + counter "count-new-record" st.
Proof.
  unfold runScript. destruct (buildIndex papers) as [[idx pd]|message]; [|discriminate].
  intros Hrun.
  assert (Hc : consistent st).
  { apply (readMarcFile_invariant consistent idx pd
             (fun st0 r st1 => onData_consistent idx pd st0 st1 r)
             records (initialState papers) st); [|done].
    unfold consistent, classified, counter, newspaperWrites. cbn.
    rewrite !lookup_empty. cbn. lia. }
  assert (Hlen : forall rs st0 st1,
            readMarcFile titleCleanup getNextNewspaperId idx pd rs st0 = Returned st1 ->
            recordCounter st1 = recordCounter st0 + length rs).
  { clear. induction rs as [|r rs IH]; intros st0 st1.
    - intros [= <-]. cbn. lia.
    - cbn [readMarcFile].
      destruct (onData titleCleanup getNextNewspaperId idx pd st0 r) as [st2|] eqn:E;
        [|discriminate].
      intros H. rewrite (IH _ _ H).
      destruct (onData_handlerCase _ _ _ _ _ _ _ E) as (? & ? & ? & ? & _ & -> & _).
      cbn. lia. }
  rewrite (Hlen _ _ _ Hrun). destruct Hc as (H1 & H2 & H3 & H4 & H5 & H6).
  rewrite (Hlen _ _ _ Hrun) in H2. cbn in *. repeat split; try done; lia.
Qed.

End RunFacts.



Lemma updateFields_kept (paper : newspaper) (date1 date2 : string) :
  kept paper (updateFields paper date1 date2).1.
Proof.
  destruct (updateFields_spec paper date1 date2) as [-> _]. unfold kept. cbn.
  assert (Hrule : forall stored new,
            negb (Js.eqs stored new) && isNewDateMoreSpecific stored new = true ->
            Js.endsWith stored "u" = true).
  { intros stored new H. apply andb_prop in H as [_ H].
    unfold isNewDateMoreSpecific in H.
    by destruct (Js.endsWith stored "u"). }
  pose proof (Hrule (firstYear paper) date1) as H1.
  pose proof (Hrule (finalYear paper) date2) as H2.
  split; [done|].
  destruct (negb (Js.eqs (firstYear paper) date1)
            && isNewDateMoreSpecific (firstYear paper) date1);
    destruct (negb (Js.eqs (finalYear paper) date2)
              && isNewDateMoreSpecific (finalYear paper) date2);
    split; intros Hu; try done;
    try (rewrite (H1 eq_refl) in Hu; discriminate);
    try (rewrite (H2 eq_refl) in Hu; discriminate).
Qed.

Lemma kept_refl (paper : newspaper) : kept paper paper.
Proof. by repeat split. Qed.

Lemma kept_trans (a b c : newspaper) : kept a b -> kept b c -> kept a c.
Proof.
  intros (H1 & H2 & H3) (H4 & H5 & H6). split; [congruence|].
  split; intros Hu.
  - rewrite <- (H2 Hu). apply H5. by rewrite (H2 Hu).
  - rewrite <- (H3 Hu). apply H6. by rewrite (H3 Hu).
Qed.

Section FrameFacts.

Variable titleCleanup : option string -> option string.
Variable getNextNewspaperId : gmap string newspaper -> string.

Lemma parse_id_truthy (idx : gmap string string) (r : Marc.record)
    (info newspaperId : string) :
  Bib.newspaperId (parse titleCleanup idx r info) = Some newspaperId ->
  Js.truthy newspaperId = true.
Proof.
  destruct (parse_numbers titleCleanup idx r info) as (_ & _ & ->).
  intros H. apply resolve_Some in H as (m & _ & Hm). unfold lookupId in Hm.
  destruct (idx !! m) as [j|]; [|done].
  destruct (Js.truthy j) eqn:Ej; [|done]. by injection Hm as <-.
Qed.


(** X14: a skipped newspaper record leaves the store alone, but its MARC
    text file is still written, under the matched id, when one of its numbers
    is known to the index and its control number is not empty; nothing is
    written otherwise. *)
Theorem X14_skipped_record_marc_file (idx : gmap string string)
    (pd : gmap string place) (st : state) (r : Marc.record) (info label : string) :
  newspaperInfo r = Some info ->
  firstSkip (skipRules (parse titleCleanup idx r info)) = Some label ->
  exists st',
    onData titleCleanup getNextNewspaperId idx pd st r = Returned st' /\
    store st' = store st /\
    events st' = events st ++
      match Bib.newspaperId (parse titleCleanup idx r info),
            Bib.marcControlNumber (parse titleCleanup idx r info) with
      | Some newspaperId, Some number =>
          if Js.truthy number then [WriteMarcFile newspaperId r] else []
      | _, _ => []
      end.
Proof.
  intros Hinfo Hskip.
  destruct (onData_skipped titleCleanup getNextNewspaperId idx pd st r info label
              Hinfo Hskip) as (st' & Hrun & Hstore & _).
  exists st'. split; [done|]. split; [done|].
  destruct (onData_handlerCase _ _ _ _ _ _ _ Hrun)
    as (serial & paper & labels & news & Hcase & _ & _ & _ & _ & -> & _).
  f_equal.
  destruct Hcase as [serial Hinfo'|info' label' Hinfo' Hskip'
                    |info' i number q Hinfo' Hskip' Hid Hnum Ht Hq
                    |info' number cleaned Hinfo' Hskip' Hid Hnum Ht Hplace];
    try congruence.
  assert (info' = info) as -> by congruence.
  unfold marcFileEvents.
  destruct (Bib.newspaperId _) as [i|] eqn:Hid; [|done].
  rewrite (parse_id_truthy idx r info i Hid).
  destruct (Bib.marcControlNumber _) as [number|]; [|done]. cbn.
  by destruct (Js.truthy number).
Qed.

Hypothesis fresh : forall papers, papers !! getNextNewspaperId papers = None.

Lemma onData_preserved (idx : gmap string string) (pd : gmap string place)
    (st st' : state) (r : Marc.record) (i : string) (paper : newspaper) :
  onData titleCleanup getNextNewspaperId idx pd st r = Returned st' ->
  store st !! i = Some paper ->
  exists paper', store st' !! i = Some paper' /\ kept paper paper'.
Proof.
  intros Hrun Hi.
  destruct (onData_handlerCase _ _ _ _ _ _ _ Hrun)
    as (serial & isPaper & labels & news & Hcase & _ & _ & _ & _ & _ & ->).
  clear Hrun.
  destruct Hcase as [serial Hinfo|info label Hinfo Hskip
                    |info j number q Hinfo Hskip Hid Hnum Ht Hq
                    |info number cleaned Hinfo Hskip Hid Hnum Ht Hplace].
  - exists paper. split; [done|apply kept_refl].
  - rewrite storeEvent_marcFile. exists paper. split; [done|apply kept_refl].
  - rewrite fold_left_app, storeEvent_marcFile.
    pose proof (updateFields_kept q (Bib.date1 (parse titleCleanup idx r info))
                  (Bib.date2 (parse titleCleanup idx r info))) as Hkept.
    destruct (updateFields q _ _) as [q' updated]. cbn in *.
    destruct updated; cbn; [|exists paper; split; [done|apply kept_refl]].
    destruct (decide (j = i)) as [->|Hne].
    + rewrite lookup_insert_eq. exists q'. split; [done|]. congruence.
    + rewrite lookup_insert_ne by done. exists paper. split; [done|apply kept_refl].
  - cbn [fold_left storeEvent]. rewrite storeEvent_marcFile.
    rewrite lookup_insert_ne; [exists paper; split; [done|apply kept_refl]|].
    intros Heq. pose proof (fresh (store st)) as Hf. congruence.
Qed.

(** X12: when the next id is never the id of a stored record, a run keeps
    every record of the store under its id, with the id, title, genre,
    control number, frequency and place fields it had; only the two years
    and [isCurrent] can differ, and a year that did not end in "u" is the
    year it was. *)
Theorem X12_stored_records_kept (papers : gmap string newspaper)
    (records : list Marc.record) (st : state) (i : string) (paper : newspaper) :
  runScript titleCleanup getNextNewspaperId papers records = Returned st ->
  papers !! i = Some paper ->
  exists paper',
    store st !! i = Some paper' /\
    fixedFields paper' = fixedFields paper /\
    (Js.endsWith (firstYear paper) "u" = false -> firstYear paper' = firstYear paper) /\
    (Js.endsWith (finalYear paper) "u" = false -> finalYear paper' = finalYear paper).
Proof.
  unfold runScript. destruct (buildIndex papers) as [[idx pd]|message]; [|discriminate].
  intros Hrun Hi.
  apply (readMarcFile_invariant titleCleanup getNextNewspaperId
           (fun s => exists paper', store s !! i = Some paper' /\ kept paper paper')
           idx pd) with (st := initialState papers) (records := records); [| |done].
  - intros s r s' (q & Hq & Hkept) Hstep.
    destruct (onData_preserved idx pd s s' r i q Hstep Hq) as (q' & Hq' & Hkept').
    exists q'. split; [done|]. by apply (kept_trans paper q q').
  - exists paper. split; [done|apply kept_refl].
Qed.

End FrameFacts.

Lemma X11_counters_add_up_witness :
  let st := match runScript Sample.cleanup Sample.nextId {[ "12" := Sample.stored ]}
                    [Sample.known; Sample.daily; Sample.monthly] with
            | Returned st => st
            | Thrown _ => initialState ∅
            end in
  recordCounter st = 3 /\
  newspaperCounter st <= serialCounter st <= recordCounter st /\
  classified st = newspaperCounter st /\
  counter "count-existing-record-updated" st <= counter "count-existing-record" st /\
  counter "count-new-record-since-last-load" st <= counter "count-new-record" st /\
  length (newspaperWrites st)
  = counter "count-existing-record-updated" st + counter "count-new-record" st.
Proof.
  apply (X11_counters_add_up Sample.cleanup Sample.nextId {[ "12" := Sample.stored ]}
           [Sample.known; Sample.daily; Sample.monthly]).
  vm_compute. reflexivity.
Defined.

Lemma X12_stored_records_kept_witness :
  let st := match runScript Sample.cleanup Sample.nextId {[ "12" := Sample.stored ]}
                    [Sample.known; Sample.daily] with
            | Returned st => st
            | Thrown _ => initialState ∅
            end in
  exists paper',
    store st !! "12" = Some paper' /\
    fixedFields paper' = fixedFields Sample.stored /\
    (Js.endsWith (firstYear Sample.stored) "u" = false ->
     firstYear paper' = firstYear Sample.stored) /\
    (Js.endsWith (finalYear Sample.stored) "u" = false ->
     finalYear paper' = finalYear Sample.stored).
Proof.
  apply (X12_stored_records_kept Sample.cleanup Sample.nextId
           (fun papers => proj1 (nextId_fresh papers))
           {[ "12" := Sample.stored ]} [Sample.known; Sample.daily]).
  - vm_compute. reflexivity.
  - vm_compute. reflexivity.
Defined.


Lemma X14_skipped_record_marc_file_witness :
  let st := initialState {[ "12" := Sample.stored ]} in
  let idx : gmap string string := {[ "8000996" := "12" ]} in
  let info := Sample.info "c" "1970" "9999" in
  exists st',
    onData Sample.cleanup Sample.nextId idx ∅ st Sample.monthly = Returned st' /\
    store st' = store st /\
    events st' = events st ++
      match Bib.newspaperId (parse Sample.cleanup idx Sample.monthly info),
            Bib.marcControlNumber (parse Sample.cleanup idx Sample.monthly info) with
      | Some newspaperId, Some number =>
          if Js.truthy number then [WriteMarcFile newspaperId Sample.monthly] else []
      | _, _ => []
      end.
Proof.
  apply (X14_skipped_record_marc_file Sample.cleanup Sample.nextId
           {[ "8000996" := "12" ]} ∅ (initialState {[ "12" := Sample.stored ]})
           Sample.monthly (Sample.info "c" "1970" "9999") "count-skipped-infrequent").
  - vm_compute. reflexivity.
  - vm_compute. reflexivity.
Defined.

(** ** The tab-separated import and the page script *)

Lemma mergeColumn_writes (newspaper : Tsv.document) (column : string * string)
    (field : string) :
  Tsv.writes field column = true ->
  Tsv.mergeColumn newspaper column !! field = Some (Tsv.JStr column.2).
Proof.
  destruct column as [key cell].
  unfold Tsv.writes, Tsv.target, Tsv.special, Tsv.mergeColumn. cbn [fst snd].
  intros H. eqs_cases; cbn in *; eqs_cases; cbn in *;
    try discriminate; subst; try apply lookup_insert_eq; congruence.
Qed.

Lemma mergeRow_lookup (record : Tsv.row) (newspaper : Tsv.document) (field : string) :
  Tsv.mergeRow record newspaper !! field
  = match lastWrite field record with
    | Some cell => Some (Tsv.JStr cell)
    | None => newspaper !! field
    end.
Proof.
  induction record as [|column record IH] using rev_ind; [done|].
  unfold Tsv.mergeRow, lastWrite in *. rewrite fold_left_app, omap_app. cbn.
  destruct (Tsv.writes field column) eqn:E.
  - rewrite last_snoc. by apply mergeColumn_writes.
  - rewrite app_nil_r, mergeColumn_frame by done. exact IH.
Qed.


(** X15: after the loop over the columns of a row, a property holds the
    cell of the last column that writes to it, as a string; a property no
    column writes to keeps the value of the document read. *)
Theorem X15_last_column_wins (record : Tsv.row) (newspaper : Tsv.document)
    (field : string) :
  Tsv.mergeRow record newspaper !! field
  = match lastWrite field record with
    | Some cell => Some (Tsv.JStr cell)
    | None => newspaper !! field
    end.
Proof. exact (mergeRow_lookup record newspaper field). Qed.



Lemma kebabChar_twice (c : ascii) :
  let f c := if Ascii.eqb (Mode.lowerChar c) " " then "-"%char else Mode.lowerChar c in
  f (f c) = f c /\ Ascii.eqb (f c) " " = false.
Proof.
  destruct c as [[] [] [] [] [] [] [] []]; vm_compute; split; reflexivity.
Qed.

Lemma kebab_cons (c : ascii) (key : string) :
  Tsv.kebab (String c key)
  = String (if Ascii.eqb (Mode.lowerChar c) " " then "-"%char else Mode.lowerChar c)
      (Tsv.kebab key).
Proof. reflexivity. Qed.

Lemma kebab_twice (key : string) :
  Tsv.kebab (Tsv.kebab key) = Tsv.kebab key /\
  Js.occurs " " (Tsv.kebab key) = false.
Proof.
  induction key as [|c key [IH1 IH2]]; [done|].
  rewrite !kebab_cons. destruct (kebabChar_twice c) as [H1 H2]. cbv zeta in H1, H2.
  split.
  - by rewrite H1, IH1.
  - cbn [Js.occurs]. by rewrite H2, IH2.
Qed.

(** X17: the property name of a generic column is stable: lowering and
    hyphenating it again changes nothing, it has no space and is the name of
    none of the special columns.  So a generic column and the column named
    by its property name write to the same property. *)
Theorem X17_kebab_names (key : string) :
  Tsv.kebab (Tsv.kebab key) = Tsv.kebab key /\
  Js.occurs " " (Tsv.kebab key) = false /\
  Tsv.special (Tsv.kebab key) = false /\
  (Tsv.special key = false -> Tsv.target (Tsv.kebab key) = Tsv.target key).
Proof.
  destruct (kebab_twice key) as [Htwice Hspace].
  assert (Hspecial : Tsv.special (Tsv.kebab key) = false).
  { unfold Tsv.special.
    assert (Hno : forall name, Tsv.kebab name <> name -> Js.eqs (Tsv.kebab key) name = false).
    { intros name Hname. apply eqs_false. intros Heq. apply Hname.
      by rewrite <- Heq, Htwice. }
    rewrite !Hno; [done|..]; by vm_compute. }
  split; [done|]. split; [done|]. split; [done|].
  intros Hkey. unfold Tsv.special in Hkey, Hspecial. unfold Tsv.target.
  repeat (apply orb_false_iff in Hkey as [Hkey ?]).
  repeat (apply orb_false_iff in Hspecial as [Hspecial ?]).
  repeat match goal with H : Js.eqs _ _ = false |- _ => rewrite H; clear H end.
  cbn. by rewrite Htwice.
Qed.

(** ** prettyYear *)

Lemma endsWith_append_char (s : string) (c d : ascii) :
  Js.endsWith (s +:+ String c "") (String d "") = Ascii.eqb c d.
Proof.
  induction s as [|a s IH].
  - change ("" +:+ String c "") with (String c "").
    cbn. unfold Js.eqs. cbn. destruct (Ascii.eqb c d); done.
  - change (String a s +:+ String c "") with (String a (s +:+ String c "")).
    cbn [Js.endsWith]. rewrite IH. unfold Js.eqs. cbn.
    destruct (Ascii.eqb a d); [|done].
    destruct s; cbn; by destruct (Ascii.eqb c d).
Qed.

(** X19: [prettyYear] gives a year back as it is exactly when the year does
    not end in "u", and those are years the reconciliation never overwrites;
    a year that ends in one "u" reads "sometime in the" its first three
    characters and "0's", and a year that ends in two or three reads
    "sometime in the" its first two characters and "00's". *)
Theorem X19_prettyYear (year : string) :
  (Page.prettyYear year = year <-> Js.endsWith year "u" = false) /\
  (Page.prettyYear year = year -> forall newDate, isNewDateMoreSpecific year newDate = false) /\
  (Js.endsWith year "u" = true -> Js.endsWith year "uu" = false ->
   Page.prettyYear year = "sometime in the " +:+ Js.substring 0 3 year +:+ "0's") /\
  (Js.endsWith year "uu" = true -> Js.endsWith year "uuuu" = false ->
   Page.prettyYear year = "sometime in the " +:+ Js.substring 0 2 year +:+ "00's").
Proof.
  assert (H12 : Js.endsWith year "uu" = true -> Js.endsWith year "u" = true).
  { intros H. apply (endsWith_trailing "u" 0). apply (endsWith_trailing "u" 1) in H. lia. }
  assert (H14 : Js.endsWith year "uuuu" = true -> Js.endsWith year "uu" = true).
  { intros H. apply (endsWith_trailing "u" 1). apply (endsWith_trailing "u" 3) in H. lia. }
  assert (Hiff : Page.prettyYear year = year <-> Js.endsWith year "u" = false).
  { unfold Page.prettyYear.
    destruct (Js.endsWith year "uuuu") eqn:E4.
    { rewrite (H12 (H14 eq_refl)). split; [|done]. intros <-. by vm_compute in E4. }
    destruct (Js.endsWith year "uu") eqn:E2.
    { rewrite (H12 eq_refl). split; [|done]. intros Heq.
      pose proof (H12 eq_refl) as E1. rewrite <- Heq in E1.
      change ("sometime in the " +:+ Js.substring 0 2 year +:+ "00's")
        with ("sometime in the " +:+ (Js.substring 0 2 year +:+ ("00'" +:+ "s"))) in E1.
      rewrite <- !str_app_assoc in E1. by rewrite endsWith_append_char in E1. }
    destruct (Js.endsWith year "u") eqn:E1; [|done].
    split; [|done]. intros Heq. rewrite <- Heq in E1.
    change ("sometime in the " +:+ Js.substring 0 3 year +:+ "0's")
      with ("sometime in the " +:+ (Js.substring 0 3 year +:+ ("0'" +:+ "s"))) in E1.
    rewrite <- !str_app_assoc in E1. by rewrite endsWith_append_char in E1. }
  split; [done|]. split; [|split].
  - intros H newDate. apply Hiff in H. unfold isNewDateMoreSpecific. by rewrite H.
  - intros E1 E2. unfold Page.prettyYear. rewrite E1, E2.
    destruct (Js.endsWith year "uuuu") eqn:E4; [|done].
    rewrite (H14 eq_refl) in E2. discriminate.
  - intros E2 E4. unfold Page.prettyYear. by rewrite E2, E4.
Qed.

(** ** The frequency of a record *)

Lemma str_app_cons (a : ascii) (s t : string) : String a s +:+ t = String a (s +:+ t).
Proof. reflexivity. Qed.

Lemma str_app_empty (s : string) : s +:+ "" = s.
Proof. induction s as [|a s IH]; [done|]. by rewrite str_app_cons, IH. Qed.

Lemma str_rev_app_spec (s t : string) : String.rev_app s t = String.rev s +:+ t.
Proof.
  unfold String.rev. revert t. induction s as [|a s IH]; intros t; [done|].
  cbn [String.rev_app]. rewrite (IH (String a t)), (IH (String a "")).
  by rewrite str_app_assoc.
Qed.

Lemma str_rev_cons (a : ascii) (s : string) :
  String.rev (String a s) = String.rev s +:+ String a "".
Proof. unfold String.rev at 1. cbn [String.rev_app]. apply str_rev_app_spec. Qed.

Lemma str_rev_append (s t : string) :
  String.rev (s +:+ t) = String.rev t +:+ String.rev s.
Proof.
  induction s as [|a s IH].
  - change ("" +:+ t) with t. by rewrite str_app_empty.
  - by rewrite str_app_cons, !str_rev_cons, IH, str_app_assoc.
Qed.

Lemma str_rev_involutive (s : string) : String.rev (String.rev s) = s.
Proof.
  induction s as [|a s IH]; [done|].
  by rewrite str_rev_cons, str_rev_append, IH.
Qed.

Lemma allOf_append (p : ascii -> bool) (s t : string) :
  allOf p (s +:+ t) = allOf p s && allOf p t.
Proof.
  induction s as [|a s IH]; [done|].
  rewrite str_app_cons. cbn [allOf]. by rewrite IH, andb_assoc.
Qed.

Lemma allOf_rev (p : ascii -> bool) (s : string) : allOf p (String.rev s) = allOf p s.
Proof.
  induction s as [|a s IH]; [done|].
  rewrite str_rev_cons, allOf_append, IH. cbn. by rewrite andb_true_r, andb_comm.
Qed.

Lemma dropWhile_all (p : ascii -> bool) (s t : string) :
  allOf p s = true -> Js.dropWhile p (s +:+ t) = Js.dropWhile p t.
Proof.
  induction s as [|a s IH]; [done|]. cbn [allOf]. intros H.
  apply andb_prop in H as [Ha Hs]. rewrite str_app_cons. cbn [Js.dropWhile].
  rewrite Ha. by apply IH.
Qed.

Lemma dropWhile_none (p : ascii -> bool) (s t : string) :
  allOf (fun c => negb (p c)) s = true -> s <> "" ->
  Js.dropWhile p (s +:+ t) = s +:+ t.
Proof.
  destruct s as [|a s]; [done|]. cbn [allOf]. intros H _.
  apply andb_prop in H as [Ha _]. rewrite str_app_cons. cbn [Js.dropWhile].
  by destruct (p a).
Qed.

Lemma dropWhile_length (p : ascii -> bool) (s : string) :
  String.length (Js.dropWhile p s) <= String.length s.
Proof.
  induction s as [|a s IH]; cbn; [lia|]. destruct (p a); cbn; lia.
Qed.

Lemma dropWhile_fixed (p : ascii -> bool) (a : ascii) (s : string) :
  Js.dropWhile p (String a s) = String a s -> p a = false.
Proof.
  cbn. destruct (p a); [|done]. intros H.
  pose proof (dropWhile_length p s) as Hl. rewrite H in Hl. cbn in Hl. lia.
Qed.

Lemma allOf_weaken (p q : ascii -> bool) (s : string) :
  (forall c, p c = true -> q c = true) -> allOf p s = true -> allOf q s = true.
Proof.
  intros Hpq. induction s as [|a s IH]; [done|]. cbn. intros H.
  apply andb_prop in H as [Ha Hs]. by rewrite (Hpq a Ha), IH.
Qed.

Lemma punctuation_not_space (c : ascii) :
  trailingPunctuation c = true -> negb (Js.whiteSpace c) = true.
Proof.
  unfold trailingPunctuation. intros H.
  apply orb_prop in H as [H|H]; [apply orb_prop in H as [H|H]|];
    apply Ascii.eqb_eq in H as ->; reflexivity.
Qed.

(** X18: the clean-up of a frequency strips the white space around it and
    the full stops, commas and question marks that end it: a text that
    neither starts with white space nor ends in white space or one of the
    three marks is given back from any such wrapping, so that it is
    infrequent with the wrapping when it is without. *)
Theorem X18_cleanFrequency (before pre punctuation after : string) (c : ascii) :
  let base := pre +:+ String c "" in
  allOf Js.whiteSpace before = true ->
  allOf Js.whiteSpace after = true ->
  allOf trailingPunctuation punctuation = true ->
  Js.dropWhile Js.whiteSpace base = base ->
  Js.whiteSpace c = false ->
  trailingPunctuation c = false ->
  cleanFrequency (before +:+ base +:+ punctuation +:+ after) = base /\
  isInfrequent (cleanFrequency (before +:+ base +:+ punctuation +:+ after))
  = isInfrequent base.
Proof.
  intros base Hbefore Hafter Hpunct Hhead Hspace Hmark.
  assert (Hclean : cleanFrequency (before +:+ base +:+ punctuation +:+ after) = base);
    [|by rewrite Hclean].
  unfold cleanFrequency, Js.trim.
  rewrite (dropWhile_all _ before) by done.
  assert (Hstart : Js.dropWhile Js.whiteSpace (base +:+ punctuation +:+ after)
                   = base +:+ punctuation +:+ after).
  { destruct base as [|a rest] eqn:Eb.
    - subst base. by destruct pre.
    - apply dropWhile_fixed in Hhead. rewrite str_app_cons. cbn [Js.dropWhile].
      by rewrite Hhead. }
  rewrite Hstart. clear Hstart.
  assert (Htrim : Js.dropWhileEnd Js.whiteSpace (base +:+ punctuation +:+ after)
                  = base +:+ punctuation).
  { unfold Js.dropWhileEnd. rewrite <- str_app_assoc, str_rev_append.
    rewrite dropWhile_all by (by rewrite allOf_rev).
    subst base. rewrite !str_rev_append.
    change (String.rev (String c "")) with (String c "").
    rewrite <- str_app_assoc.
    rewrite dropWhile_none.
    - rewrite !str_rev_append, !str_rev_involutive.
      change (String.rev (String c "")) with (String c "").
      by rewrite str_app_assoc.
    - rewrite allOf_append. cbn. rewrite Hspace. cbn. rewrite andb_true_r.
      rewrite allOf_rev.
      apply (allOf_weaken trailingPunctuation); [|done].
      apply punctuation_not_space.
    - destruct (String.rev punctuation); done. }
  rewrite Htrim. unfold Js.dropWhileEnd. rewrite str_rev_append.
  rewrite dropWhile_all by (by rewrite allOf_rev).
  subst base. rewrite str_rev_append.
  change (String.rev (String c "")) with (String c "").
  rewrite str_app_cons. cbn [Js.dropWhile]. rewrite Hmark.
  change ("" +:+ String.rev pre) with (String.rev pre).
  by rewrite str_rev_cons, str_rev_involutive.
Qed.

Lemma X18_cleanFrequency_witness :
  cleanFrequency (" " +:+ ("Monthl" +:+ "y") +:+ ".?" +:+ " ") = "Monthl" +:+ "y" /\
  isInfrequent (cleanFrequency (" " +:+ ("Monthl" +:+ "y") +:+ ".?" +:+ " "))
  = isInfrequent ("Monthl" +:+ "y").
Proof.
  apply (X18_cleanFrequency " " "Monthl" ".?" " " "y"); reflexivity.
Defined.
